(** * Extra Fancy Sokoban: the controller of [a3.py]

    A shallow embedding of the controller class [ExtraFancySokoban]
    (keypress handling, shop callbacks, saving and loading) together with
    the few Python primitives it relies on.  The model classes of
    [model.py] and the constants of [a2_support.py] / [a3_support.py] are
    imported by [a3.py] but are not part of the sources at hand; they
    appear here as interfaces (type classes) or as definitions marked
    "Modelled from the spec". *)

From Stdlib Require Import ZArith List String Ascii Bool Lia DecimalString
  DecimalPos.
From stdpp Require Import base gmap strings list.

Local Open Scope string_scope.
Local Open Scope Z_scope.

(** ** Python primitives *)

Module Py.

(** Exceptions that the statements of [a3.py] can raise. *)
Inductive Exn :=
| IndexError
| ValueError
| TypeError
| AttributeError
| UnboundLocalError.

#[global] Instance Exn_eq_dec : EqDecision Exn.
Proof. solve_decision. Defined.

(** A [str] is the list of its code points, taken below 256.

    [str.isspace] there, which is also the set that [str.strip()]
    removes: TAB, LF, VT, FF, CR, the four separators FS, GS, RS, US, the
    blank, NEL (133) and the no-break space (160). *)
Definition isspace (c : ascii) : bool :=
  let n := N_of_ascii c in
  ((9 <=? n) && (n <=? 13) || (28 <=? n) && (n <=? 32)
   || (n =? 133) || (n =? 160))%N.

(** The whitespace that [int()] skips around a number: the six
    characters of C's [isspace] (TAB, LF, VT, FF, CR, blank), and NEL
    and the no-break space, which [int()] first turns into blanks.  The
    separators FS, GS, RS, US are not among them. *)
Definition int_space (c : ascii) : bool :=
  let n := N_of_ascii c in
  ((9 <=? n) && (n <=? 13) || (n =? 32) || (n =? 133) || (n =? 160))%N.

(** Dropping the leading, and the trailing, characters that satisfy
    [p]. *)
Fixpoint drop_leading (p : ascii -> bool) (s : string) : string :=
  match s with
  | EmptyString => EmptyString
  | String c s' => if p c then drop_leading p s' else s
  end.

Fixpoint drop_trailing (p : ascii -> bool) (s : string) : string :=
  match s with
  | EmptyString => EmptyString
  | String c s' =>
      match drop_trailing p s' with
      | EmptyString => if p c then EmptyString else String c EmptyString
      | r => String c r
      end
  end.

(** [s.lstrip()] *)
Fixpoint lstrip (s : string) : string :=
  match s with
  | EmptyString => EmptyString
  | String c s' => if isspace c then lstrip s' else s
  end.

(** [s.rstrip()] *)
Fixpoint rstrip (s : string) : string :=
  match s with
  | EmptyString => EmptyString
  | String c s' =>
      match rstrip s' with
      | EmptyString => if isspace c then EmptyString else String c EmptyString
      | r => String c r
      end
  end.

(** [s.strip()] *)
Definition strip (s : string) : string := rstrip (lstrip s).

(** [s.split(sep)] for a one-character separator: every occurrence of
    the separator cuts, so the result is never empty and may hold empty
    strings. *)
Fixpoint split (sep : ascii) (s : string) : list string :=
  match s with
  | EmptyString => [EmptyString]
  | String c s' =>
      if Ascii.eqb c sep then EmptyString :: split sep s'
      else match split sep s' with
           | w :: ws => String c w :: ws
           | [] => [String c EmptyString]
           end
  end.

(** [str(n)] for an [int]. *)
Definition str (n : Z) : string := NilZero.string_of_int (Z.to_int n).

Definition digit (c : ascii) : option Z :=
  let n := N_of_ascii c in
  if ((48 <=? n) && (n <=? 57))%N then Some (Z.of_N n - 48) else None.

(** The digits of an [int(...)] argument after the sign: decimal digits
    where single underscores may separate two digits.  [acc] is the
    value read so far, [prev] tells whether the previous character was
    a digit. *)
Fixpoint digits (s : string) (acc : Z) (prev : bool) : option Z :=
  match s with
  | EmptyString => if prev then Some acc else None
  | String c s' =>
      match digit c with
      | Some d => digits s' (10 * acc + d) true
      | None =>
          if Ascii.eqb c "_" && prev
          then match s' with
               | String c' _ =>
                   match digit c' with
                   | Some _ => digits s' acc false
                   | None => None
                   end
               | EmptyString => None
               end
          else None
      end
  end.

(** [int(s)]: the whitespace of [int_space] around the number is
    ignored, one sign is allowed, every other character that is no digit
    or underscore is refused; [None] stands for [ValueError].  The
    interpreter's limit on the number of digits (none before Python
    3.11, then 4300 unless configured, never below 640) is left out. *)
Definition int (s : string) : option Z :=
  match drop_trailing int_space (drop_leading int_space s) with
  | String "-" r => Z.opp <$> digits r 0 false
  | String "+" r => digits r 0 false
  | r => digits r 0 false
  end.

(** [file.readlines()] over the text of a file: every line keeps its
    terminating newline, the last one may lack it. *)
Fixpoint readlines (text : string) : list string :=
  match text with
  | EmptyString => []
  | String c rest =>
      if Ascii.eqb c "010" then String c EmptyString :: readlines rest
      else match readlines rest with
           | l :: ls => String c l :: ls
           | [] => [String c EmptyString]
           end
  end.

(** [enumerate(l)] *)
Definition enumerate {A} (l : list A) : list (Z * A) :=
  imap (fun i x => (Z.of_nat i, x)) l.

(** The characters of a string, as [for char in s] yields them. *)
Definition chars (s : string) : list ascii := list_ascii_of_string s.

End Py.

(** The newline character and the one-character string, as Python has no
    character type of its own. *)
Definition nl : ascii := "010".
Definition str1 (c : ascii) : string := String c EmptyString.

(** ** The support constants and the model classes *)

(** The marker constants that [a3.py] takes from [a2_support] with
    [import *].  Their values are not in the sources; the code compares
    them with single characters of a line and passes them to
    [file.write], so they are one-character [str] objects. *)
Class Support := {
  WALL : ascii;
  FLOOR : ascii;
  GOAL : ascii;
  CRATE : ascii;
  PLAYER : ascii;
  STRENGTH_POTION : ascii;
  MOVE_POTION : ascii;
  FANCY_POTION : ascii;
}.

(** [COIN = '$'], as [FancyGameView.display] declares it. *)
Definition COIN : ascii := "$".

Definition Position : Type := Z * Z.

(** Modelled from the spec: the class [Tile] of [model.py] is missing;
    section 3 gives the kinds Wall, Floor and Goal, and [get_type]
    answers the marker the view and the save routine compare with. *)
Inductive Tile := Wall | Floor | Goal.

Definition Tile_get_type `{Support} (t : Tile) : ascii :=
  match t with Wall => WALL | Floor => FLOOR | Goal => GOAL end.

(** Modelled from the spec: the potion kinds of section 3. *)
Inductive Potion := StrengthPotion | MovePotion | FancyPotion.

(** Modelled from the spec: the class [Entity] of [model.py] is missing;
    section 3 gives a tagged variant where only a crate carries a
    strength. *)
Inductive Entity :=
| Crate (strength : Z)
| Coin
| APotion (kind : Potion).

Definition Potion_get_type `{Support} (k : Potion) : ascii :=
  match k with
  | StrengthPotion => STRENGTH_POTION
  | MovePotion => MOVE_POTION
  | FancyPotion => FANCY_POTION
  end.

Definition Entity_get_type `{Support} (e : Entity) : ascii :=
  match e with
  | Crate _ => CRATE
  | Coin => COIN
  | APotion k => Potion_get_type k
  end.

Definition Entity_get_strength (e : Entity) : option Z :=
  match e with Crate s => Some s | _ => None end.

#[global] Instance Tile_eq_dec : EqDecision Tile.
Proof. solve_decision. Defined.
#[global] Instance Potion_eq_dec : EqDecision Potion.
Proof. solve_decision. Defined.
#[global] Instance Entity_eq_dec : EqDecision Entity.
Proof. solve_decision. Defined.

(** Modelled from the spec: the player object behind [get_player()]
    (section 3, PlayerState without the position). *)
Record Player := {
  _strength : Z;
  _moves_remaining : Z;
  _money : Z;
}.

(** What [row_maze] holds in [load_game_state]: wall markers and, after
    [row_maze.append(row_maze)], a reference to the list itself. *)
Inductive RowItem := RMarker (c : ascii) | RSelf.

(** Modelled from the spec: the attributes of a [SokobanModel] instance.
    The class is in [model.py], which is missing; the private fields
    follow section 3 (maze, entity registry, player state), with the
    position under the name [a3.py] assigns to.  The last three fields
    are the public attributes that [load_game_state] assigns; they do
    not exist on the instance ([None]) until then. *)
Record SokobanModel := {
  _maze : list (list Tile);
  _entities : gmap Position Entity;
  _player_position : Position;
  _player : Player;
  player_strength : option Z;
  player_moves_remaining : option Z;
  maze : option (list RowItem);
}.

(** Modelled from the spec: the read-only query accessors of section 6. *)
Definition get_maze (m : SokobanModel) := _maze m.
Definition get_entities (m : SokobanModel) := _entities m.
Definition get_player_position (m : SokobanModel) := _player_position m.
Definition get_player_strength (m : SokobanModel) := _strength (_player m).
Definition get_player_moves_remaining (m : SokobanModel) :=
  _moves_remaining (_player m).
Definition get_player_money (m : SokobanModel) := _money (_player m).

(** Modelled from the spec: the methods of [SokobanModel] that change or
    judge the game.  Their bodies are in [model.py], which is missing;
    after sections 4.1 to 4.3 and 7 the mutators are state changes that
    never raise and [has_won] is a pure predicate.  The controller is
    verified against this interface. *)
Class Engine := {
  attempt_move : string -> SokobanModel -> SokobanModel;
  attempt_purchase : string -> SokobanModel -> SokobanModel;
  has_won : SokobanModel -> bool;
  reset : SokobanModel -> SokobanModel;
  get_shop_items : SokobanModel -> list (string * Z);
}.

(** ** The controller and its effects *)

(** What the controller does to the outside, in the order it happens:
    calls of model methods, and calls to Tk and to the view. *)
Inductive Method :=
| m_attempt_move (direction : string)
| m_attempt_purchase (item_id : string)
| m_has_won
| m_reset
| m_get_player
| m_get_maze
| m_get_entities
| m_get_player_position
| m_get_player_moves_remaining
| m_get_player_strength
| m_get_player_money.

Inductive Event :=
| Call (f : Method)
| AskYesNo (message : string)
| ClearAll
| DisplayGame (grid : list (list Tile)) (entities : gmap Position Entity)
    (player_position : Position)
| DisplayStats (moves strength money : Z)
| Destroy.

(** The instance attributes of [ExtraFancySokoban] that the methods use
    ([char], [player_position] and [moves_remaining] are created by
    assignment), and [events], the effects performed so far. *)
Record ExtraFancySokoban := {
  model : SokobanModel;
  char : option string;
  player_position : option Position;
  moves_remaining : option Z;
  events : list Event;
}.

(** A statement either completes with a value or raises; the state it
    leaves behind is kept in both cases. *)
Inductive Result (A : Type) :=
| Done (a : A)
| Raise (e : Py.Exn).
Arguments Done {A} a.
Arguments Raise {A} e.

Definition Ctl (A : Type) : Type :=
  ExtraFancySokoban -> Result A * ExtraFancySokoban.

Definition ret {A} (a : A) : Ctl A := fun s => (Done a, s).
Definition raise {A} (e : Py.Exn) : Ctl A := fun s => (Raise e, s).
Definition bind {A B} (c : Ctl A) (k : A -> Ctl B) : Ctl B :=
  fun s => match c s with
           | (Done a, s') => k a s'
           | (Raise e, s') => (Raise e, s')
           end.

Notation "x <- c ;; k" := (bind c (fun x => k))
  (at level 100, c at next level, right associativity).
Notation "c ;; k" := (bind c (fun _ => k))
  (at level 100, right associativity).

(** [for x in l: body], with the local variables the body updates. *)
Fixpoint for_each {A L} (body : A -> L -> Ctl L) (l : list A) (loc : L)
  : Ctl L :=
  match l with
  | [] => ret loc
  | x :: l' => loc' <- body x loc ;; for_each body l' loc'
  end.

Definition emit (e : Event) : Ctl unit := fun s =>
  (Done tt, {| model := model s; char := char s;
               player_position := player_position s;
               moves_remaining := moves_remaining s;
               events := (events s ++ [e])%list |}).

Definition update_model (f : SokobanModel -> SokobanModel) : Ctl unit :=
  fun s =>
  (Done tt, {| model := f (model s); char := char s;
               player_position := player_position s;
               moves_remaining := moves_remaining s;
               events := events s |}).

(** [self.model.<accessor>()] *)
Definition query {A} (f : Method) (get : SokobanModel -> A) : Ctl A :=
  emit (Call f) ;; fun s => (Done (get (model s)), s).

(** [self.model.<mutator>(...)] *)
Definition command (f : Method) (run : SokobanModel -> SokobanModel)
  : Ctl unit :=
  emit (Call f) ;; update_model run.

Definition set_char (c : string) : Ctl unit := fun s =>
  (Done tt, {| model := model s; char := Some c;
               player_position := player_position s;
               moves_remaining := moves_remaining s;
               events := events s |}).

Definition set_player_position (p : Position) : Ctl unit := fun s =>
  (Done tt, {| model := model s; char := char s;
               player_position := Some p;
               moves_remaining := moves_remaining s;
               events := events s |}).

Definition set_moves_remaining (n : Z) : Ctl unit := fun s =>
  (Done tt, {| model := model s; char := char s;
               player_position := player_position s;
               moves_remaining := Some n;
               events := events s |}).

(** Assignments to attributes of [self.model] from outside the class. *)
Definition with_player_position (p : Position) (m : SokobanModel) :=
  {| _maze := _maze m; _entities := _entities m; _player_position := p;
     _player := _player m; player_strength := player_strength m;
     player_moves_remaining := player_moves_remaining m; maze := maze m |}.

Definition with_player_strength (n : Z) (m : SokobanModel) :=
  {| _maze := _maze m; _entities := _entities m;
     _player_position := _player_position m;
     _player := _player m; player_strength := Some n;
     player_moves_remaining := player_moves_remaining m; maze := maze m |}.

Definition with_player_moves_remaining (n : Z) (m : SokobanModel) :=
  {| _maze := _maze m; _entities := _entities m;
     _player_position := _player_position m;
     _player := _player m; player_strength := player_strength m;
     player_moves_remaining := Some n; maze := maze m |}.

Definition with_maze (r : list RowItem) (m : SokobanModel) :=
  {| _maze := _maze m; _entities := _entities m;
     _player_position := _player_position m;
     _player := _player m; player_strength := player_strength m;
     player_moves_remaining := player_moves_remaining m; maze := Some r |}.

(** Calling a [str] object, as in [CRATE()]: [TypeError]. *)
Definition call_str {A} (f : ascii) : Ctl A := raise Py.TypeError.

(** Reading an attribute that [str] does not have, as in
    [STRENGTH_POTION.EFFECT]: [AttributeError], and no value. *)
Definition getattr_str (o : ascii) (name : string) : Ctl Empty_set :=
  raise Py.AttributeError.

(** One frame of the shop: the label's item name and price, and the
    command bound to its Buy button. *)
Record BuyableItem := {
  item : option string;
  amount : Z;
  callback : Ctl (option Z);
}.

(** The local variables of one turn of the outer loop of
    [load_game_state]. *)
Record RowLocals := {
  row_maze : list RowItem;
  entities : gmap Position Entity;
}.

Section Controller.

Context `{Support} `{Engine}.

(** [messagebox.askyesno]: the answer the user gives to a message. *)
Variable askyesno : string -> bool.

(** [ExtraFancySokoban.redraw] *)
Definition redraw : Ctl unit :=
  grid <- query m_get_maze get_maze ;;
  ents <- query m_get_entities get_entities ;;
  pos <- query m_get_player_position get_player_position ;;
  emit (DisplayGame grid ents pos) ;;
  moves <- query m_get_player_moves_remaining get_player_moves_remaining ;;
  strength <- query m_get_player_strength get_player_strength ;;
  money <- query m_get_player_money get_player_money ;;
  emit (DisplayStats moves strength money).

(** [ExtraFancySokoban.chosen] *)
Definition chosen (message : string) : Ctl unit :=
  emit (AskYesNo message) ;;
  if askyesno message then
    set_player_position (0, 0) ;;
    set_moves_remaining 10 ;;
    command m_reset reset ;;
    emit ClearAll ;;
    redraw
  else
    emit ClearAll ;;
    command m_reset reset ;;
    emit Destroy.

(** [ExtraFancySokoban.handle_keypress], given [event.char] *)
Definition handle_keypress (event_char : string) : Ctl unit :=
  set_char event_char ;;
  if bool_decide (event_char ∈ ["w"; "s"; "a"; "d"]) then
    command (m_attempt_move event_char) (attempt_move event_char) ;;
    won <- query m_has_won has_won ;;
    if won then
      chosen "You won! Play again?"
    else
      moves <- query m_get_player_moves_remaining
                 get_player_moves_remaining ;;
      lost <- (if moves =? 0
               then won' <- query m_has_won has_won ;; ret (negb won')
               else ret false) ;;
      if lost then
        chosen "You lose! Play again?"
      else
        redraw
  else
    ret tt.

(** [ExtraFancySokoban.perform_action].  In the first branch the
    argument [STRENGTH_POTION.EFFECT] is evaluated after
    [self.model.get_player()] and before [apply_effect] is entered. *)
Definition perform_action (item_id : string) : Ctl (option Z) :=
  if String.eqb item_id "STRENGTH_POTION" then
    player <- query m_get_player _player ;;
    effect <- getattr_str STRENGTH_POTION "EFFECT" ;;
    match effect with end
  else
    command (m_attempt_purchase item_id) (attempt_purchase item_id) ;;
    redraw ;;
    ret None.

(** [FancySokobanView.create_shop_items]: one frame per entry, whose
    button calls [button_callback] with the entry's key. *)
Definition create_shop_items (shop_items : list (string * Z))
    (button_callback : string -> Ctl (option Z)) : list BuyableItem :=
  map (fun '(key, value) =>
         let item_name :=
           if String.eqb key (str1 STRENGTH_POTION) then
             Some "Strength Potion"
           else if String.eqb key (str1 MOVE_POTION) then
             Some "Move Potion"
           else if String.eqb key (str1 FANCY_POTION) then
             Some "Fancy Potion"
           else None in
         {| item := item_name; amount := value;
            callback := button_callback key |})
      shop_items.

(** The shop as [__init__] builds it. *)
Definition shop (m : SokobanModel) : list BuyableItem :=
  create_shop_items (get_shop_items m) (fun item_id => perform_action item_id).

(** What the inner loops of [save_game_state] write for the cell
    [(i, j)] holding tile [col]. *)
Definition save_cell (m : SokobanModel) (i j : Z) (col : Tile) : string :=
  if bool_decide ((i, j) = get_player_position m) then str1 PLAYER
  else if Ascii.eqb (Tile_get_type col) WALL then str1 WALL
  else
    match get_entities m !! (i, j) with
    | Some entity =>
        if Ascii.eqb (Entity_get_type entity) CRATE then
          match Entity_get_strength entity with
          | Some entity_strength => Py.str entity_strength
          | None => "None"
          end
        else if Ascii.eqb (Entity_get_type entity) FANCY_POTION then
          str1 FANCY_POTION
        else if Ascii.eqb (Entity_get_type entity) MOVE_POTION then
          str1 MOVE_POTION
        else if Ascii.eqb (Entity_get_type entity) STRENGTH_POTION then
          str1 STRENGTH_POTION
        else ""
    | None => " "
    end.

Definition save_row (m : SokobanModel) (i : Z) (row : list Tile) : string :=
  String.concat ""
    (map (fun '(j, col) => save_cell m i j col) (Py.enumerate row))
  ++ str1 nl.

(** [ExtraFancySokoban.save_game_state]: the text written to the
    chosen file. *)
Definition save_game_state (m : SokobanModel) : string :=
  let strength := get_player_strength m in
  let moves_remaining := get_player_moves_remaining m in
  (Py.str strength ++ " " ++ Py.str moves_remaining ++ str1 nl)
  ++ String.concat ""
       (map (fun '(i, row) => save_row m i row) (Py.enumerate (get_maze m))).

(** The body of [for j, char in enumerate(line.strip())]. *)
Definition load_char (i : Z) (jc : Z * ascii) (loc : RowLocals)
  : Ctl RowLocals :=
  let '(j, char) := jc in
  if Ascii.eqb char PLAYER then
    let player_position := (i, j + 1) in
    update_model (with_player_position player_position) ;;
    ret loc
  else if Ascii.eqb char WALL then
    ret {| row_maze := (row_maze loc ++ [RMarker WALL])%list;
           entities := entities loc |}
  else
    entity <- (if Ascii.eqb char CRATE then
                 (e <- call_str (A:=Entity) CRATE ;; ret (Some e))
               else if Ascii.eqb char FANCY_POTION then
                 (e <- call_str (A:=Entity) FANCY_POTION ;; ret (Some e))
               else if Ascii.eqb char MOVE_POTION then
                 (e <- call_str (A:=Entity) MOVE_POTION ;; ret (Some e))
               else if Ascii.eqb char STRENGTH_POTION then
                 (e <- call_str (A:=Entity) STRENGTH_POTION ;; ret (Some e))
               else ret None) ;;
    match entity with
    | Some e => ret {| row_maze := row_maze loc;
                       entities := <[(i, j) := e]> (entities loc) |}
    | None => ret loc
    end.

(** The body of [for i, line in enumerate(lines[1:])]; the result is
    the list that the name [row_maze] is bound to afterwards. *)
Definition load_line (il : Z * string) (_ : option (list RowItem))
  : Ctl (option (list RowItem)) :=
  let '(i, line) := il in
  loc <- for_each (load_char i) (Py.enumerate (Py.chars (Py.strip line)))
           {| row_maze := []; entities := ∅ |} ;;
  ret (Some (row_maze loc ++ [RSelf])%list).

(** [ExtraFancySokoban.load_game_state], given [file.readlines()] *)
Definition load_game_state (lines : list string) : Ctl unit :=
  line0 <- match lines with
           | l :: _ => ret l
           | [] => raise Py.IndexError
           end ;;
  player_stats <-
    for_each (fun item acc =>
                match Py.int item with
                | Some n => ret (acc ++ [n])%list
                | None => raise Py.ValueError
                end)
             (Py.split " " (Py.strip line0)) [] ;;
  match player_stats !! 0%nat with
  | Some n => update_model (with_player_strength n)
  | None => raise Py.IndexError
  end ;;
  match player_stats !! 1%nat with
  | Some n => update_model (with_player_moves_remaining n)
  | None => raise Py.IndexError
  end ;;
  bound <- for_each load_line (Py.enumerate (tail lines)) None ;;
  match bound with
  | Some r => update_model (with_maze r)
  | None => raise Py.UnboundLocalError
  end ;;
  query m_get_entities get_entities ;;
  redraw.

End Controller.

(** ** The engine of the spec *)

(** Modelled from the spec: the mutators and the win predicate of
    [SokobanModel] ([model.py] is missing), after sections 4.1 to 4.3;
    the constants that the spec calls fixed are the fields of [Rules],
    [level] being the state built from the level source. *)
Record Rules := {
  coin_value : Z;
  strength_increment : Z;
  move_increment : Z;
  price : Potion -> Z;
  level : SokobanModel;
}.

Module SpecEngine.
Section Spec.

Context `{Support} (R : Rules).

Definition with_player (p : Player) (m : SokobanModel) :=
  {| _maze := _maze m; _entities := _entities m;
     _player_position := _player_position m;
     _player := p; player_strength := player_strength m;
     player_moves_remaining := player_moves_remaining m; maze := maze m |}.

Definition with_entities (e : gmap Position Entity) (m : SokobanModel) :=
  {| _maze := _maze m; _entities := e;
     _player_position := _player_position m;
     _player := _player m; player_strength := player_strength m;
     player_moves_remaining := player_moves_remaining m; maze := maze m |}.

(** Section 4.2, the potion effects. *)
Definition apply_effect (k : Potion) (p : Player) : Player :=
  match k with
  | StrengthPotion =>
      {| _strength := _strength p + strength_increment R;
         _moves_remaining := _moves_remaining p; _money := _money p |}
  | MovePotion =>
      {| _strength := _strength p;
         _moves_remaining := _moves_remaining p + move_increment R;
         _money := _money p |}
  | FancyPotion =>
      {| _strength := _strength p + strength_increment R;
         _moves_remaining := _moves_remaining p + move_increment R;
         _money := _money p |}
  end.

Definition add_money (n : Z) (p : Player) : Player :=
  {| _strength := _strength p; _moves_remaining := _moves_remaining p;
     _money := _money p + n |}.

Definition use_move (p : Player) : Player :=
  {| _strength := _strength p; _moves_remaining := _moves_remaining p - 1;
     _money := _money p |}.

(** The catalogue: every potion kind, under its type marker. *)
Definition shop_items : list (string * Z) :=
  map (fun k => (str1 (Potion_get_type k), price R k))
      [StrengthPotion; MovePotion; FancyPotion].

Definition kind_of_id (item_id : string) : option Potion :=
  find (fun k => String.eqb item_id (str1 (Potion_get_type k)))
       [StrengthPotion; MovePotion; FancyPotion].

(** Section 4.2, [attempt_purchase]. *)
Definition purchase (item_id : string) (m : SokobanModel) : SokobanModel :=
  match kind_of_id item_id with
  | None => m
  | Some k =>
      if get_player_money m <? price R k then m
      else with_player (apply_effect k (add_money (- price R k) (_player m))) m
  end.

Definition tile_at (m : SokobanModel) (p : Position) : option Tile :=
  if (p.1 <? 0) || (p.2 <? 0) then None
  else row ← _maze m !! Z.to_nat p.1; row !! Z.to_nat p.2.

(** A cell that nothing can enter: outside the maze, or a wall. *)
Definition blocked (m : SokobanModel) (p : Position) : bool :=
  match tile_at m p with
  | None | Some Wall => true
  | Some _ => false
  end.

Definition direction_vector (direction : string) : option Position :=
  if String.eqb direction "w" then Some (-1, 0)
  else if String.eqb direction "s" then Some (1, 0)
  else if String.eqb direction "a" then Some (0, -1)
  else if String.eqb direction "d" then Some (0, 1)
  else None.

(** Section 4.1, steps 3 and 5: the player enters [target], which
    holds no crate. *)
Definition step_to (target : Position) (m : SokobanModel) : SokobanModel :=
  let picked :=
    match _entities m !! target with
    | Some Coin => add_money (coin_value R) (_player m)
    | Some (APotion k) => apply_effect k (_player m)
    | _ => _player m
    end in
  with_player_position target
    (with_player (use_move picked)
       (with_entities (delete target (_entities m)) m)).

(** Section 4.1, [attempt_move]. *)
Definition move (direction : string) (m : SokobanModel) : SokobanModel :=
  if get_player_moves_remaining m =? 0 then m
  else
    match direction_vector direction with
    | None => m
    | Some d =>
        let pos := _player_position m in
        let target := (pos.1 + d.1, pos.2 + d.2) in
        if blocked m target then m
        else
          match _entities m !! target with
          | Some (Crate s) =>
              let beyond := (target.1 + d.1, target.2 + d.2) in
              if blocked m beyond then m
              else if bool_decide (is_Some (_entities m !! beyond)) then m
              else if get_player_strength m <? s then m
              else
                with_player_position target
                  (with_player (use_move (_player m))
                     (with_entities
                        (<[beyond := Crate s]> (delete target (_entities m)))
                        m))
          | _ => step_to target m
          end
    end.

(** Section 4.3, [has_won]: every goal tile holds a crate. *)
Definition won (m : SokobanModel) : bool :=
  forallb (fun '(i, row) =>
    forallb (fun '(j, t) =>
      match t with
      | Goal => match _entities m !! (i, j) with
                | Some (Crate _) => true
                | _ => false
                end
      | _ => true
      end) (Py.enumerate row)) (Py.enumerate (_maze m)).

(** Section 3, [reset]: back to the state built from the level source;
    attributes assigned from outside stay on the instance. *)
Definition restart (m : SokobanModel) : SokobanModel :=
  {| _maze := _maze (level R); _entities := _entities (level R);
     _player_position := _player_position (level R);
     _player := _player (level R); player_strength := player_strength m;
     player_moves_remaining := player_moves_remaining m; maze := maze m |}.

#[export] Instance engine : Engine := {|
  attempt_move := move;
  attempt_purchase := purchase;
  has_won := won;
  reset := restart;
  get_shop_items := fun _ => shop_items;
|}.

End Spec.
End SpecEngine.

(** ** Vocabulary of the statements *)

(** The effects of one run of [redraw] on a model in state [m]. *)
Definition redraw_events (m : SokobanModel) : list Event :=
  [Call m_get_maze; Call m_get_entities; Call m_get_player_position;
   DisplayGame (get_maze m) (get_entities m) (get_player_position m);
   Call m_get_player_moves_remaining; Call m_get_player_strength;
   Call m_get_player_money;
   DisplayStats (get_player_moves_remaining m) (get_player_strength m)
     (get_player_money m)].

(** Drawing on the view. *)
Definition is_display (e : Event) : bool :=
  match e with DisplayGame _ _ _ | DisplayStats _ _ _ => true | _ => false end.

(** The two queries through which the shell observes the outcome. *)
Definition is_outcome_query (e : Event) : bool :=
  match e with
  | Call m_has_won | Call m_get_player_moves_remaining => true
  | _ => false
  end.

Definition movement_keys : list string := ["w"; "s"; "a"; "d"].

Definition win_message : string := "You won! Play again?".
Definition lose_message : string := "You lose! Play again?".

(** The loss condition of section 4.3. *)
Definition loss_condition `{Engine} (m : SokobanModel) : bool :=
  (get_player_moves_remaining m =? 0) && negb (has_won m).

(** The effects of [chosen] on a model in state [m], after the answer. *)
Definition chosen_events `{Engine} (yes : bool) (m : SokobanModel)
  : list Event :=
  if yes then Call m_reset :: ClearAll :: redraw_events (reset m)
  else [ClearAll; Call m_reset; Destroy].

(** A statement that leaves the entity registry of the model alone,
    whether it completes or raises. *)
Definition keeps_entities {A} (c : Ctl A) : Prop :=
  forall s, get_entities (model (c s).2) = get_entities (model s).

(** What the first line makes [load_game_state] raise before anything is
    assigned: [IndexError] when there is no first line, [ValueError] when
    one of its blank-separated items is no integer for [int()]. *)
Definition header_fault (lines : list string) : option Py.Exn :=
  match lines with
  | [] => Some Py.IndexError
  | line0 :: _ =>
      if forallb (fun item => bool_decide (is_Some (Py.int item)))
           (Py.split " " (Py.strip line0))
      then None
      else Some Py.ValueError
  end.

(** The observations that a saved file is meant to carry. *)
Definition wall_layout (m : SokobanModel) : list (list bool) :=
  map (map (fun t => bool_decide (t = Wall))) (get_maze m).

Definition crates_and_potions (m : SokobanModel) : list (Position * Entity) :=
  filter (fun pe => pe.2 ≠ Coin) (map_to_list (get_entities m)).

Definition same_saved_state (a b : SokobanModel) : Prop :=
  get_player_strength a = get_player_strength b
  /\ get_player_moves_remaining a = get_player_moves_remaining b
  /\ get_player_position a = get_player_position b
  /\ wall_layout a = wall_layout b
  /\ crates_and_potions a ≡ₚ crates_and_potions b.

(** The effects that [c] adds when run from [s]. *)
Definition performed {A} (c : Ctl A) (s : ExtraFancySokoban) : list Event :=
  drop (length (events s)) (events (c s).2).

(** A controller that has just been built around [m]. *)
Definition fresh (m : SokobanModel) : ExtraFancySokoban :=
  {| model := m; char := None; player_position := None;
     moves_remaining := None; events := [] |}.

(** ** Examples for evaluation *)

(** Markers for evaluating examples: each kind under the letter that
    names its image in [FancyGameView.display] ([images/W.png],
    [images/G.png], [images/C.png], [images/P.png], [images/S.png],
    [images/M.png], [images/F.png]) and the blank for the floor. *)
Definition letters : Support := {|
  WALL := "W"; FLOOR := " "; GOAL := "G"; CRATE := "C"; PLAYER := "P";
  STRENGTH_POTION := "S"; MOVE_POTION := "M"; FANCY_POTION := "F";
|}.

Definition corridor : list (list Tile) :=
  [[Wall; Wall; Wall; Wall; Wall];
   [Wall; Floor; Floor; Goal; Wall];
   [Wall; Wall; Wall; Wall; Wall]].

(** Player at (1,1) with strength 2 and 5 moves, a crate of strength 1
    at (1,2), the goal at (1,3). *)
Definition game : SokobanModel :=
  {| _maze := corridor; _entities := {[ (1, 2) := Crate 1 ]};
     _player_position := (1, 1);
     _player := {| _strength := 2; _moves_remaining := 5; _money := 0 |};
     player_strength := None; player_moves_remaining := None;
     maze := None |}.

(** The same maze with a coin in place of the crate. *)
Definition coin_game : SokobanModel :=
  SpecEngine.with_entities {[ (1, 2) := Coin ]} game.

(** The same maze with a move potion at (1,2) and a crate of strength 12
    at (1,3). *)
Definition potion_game : SokobanModel :=
  SpecEngine.with_entities
    {[ (1, 2) := APotion MovePotion; (1, 3) := Crate 12 ]} game.

(** A later moment of play: the crate pushed onto the goal is gone from
    (1,2), the player stands at (1,2) with 9 moves, strength 1, money 3. *)
Definition later_game : SokobanModel :=
  {| _maze := corridor; _entities := {[ (1, 3) := Crate 1 ]};
     _player_position := (1, 2);
     _player := {| _strength := 1; _moves_remaining := 9; _money := 3 |};
     player_strength := None; player_moves_remaining := None;
     maze := None |}.

(** One move left, the goal not covered. *)
Definition last_move_game : SokobanModel :=
  SpecEngine.with_player
    {| _strength := 1; _moves_remaining := 1; _money := 6 |} coin_game.

Definition rules : Rules :=
  {| coin_value := 1; strength_increment := 2; move_increment := 5;
     price := fun k => match k with FancyPotion => 10 | _ => 5 end;
     level := game |}.

Definition letters_engine : Engine := @SpecEngine.engine letters rules.

(** ** What the view shows *)

(** What the two canvases of the view show.  [display_game] and
    [display_stats] clear their canvas before they draw, so each canvas
    holds what the last call drew from its arguments; [clear_all] empties
    both. *)
Record View := {
  game_canvas : option (list (list Tile) * gmap Position Entity * Position);
  stats_canvas : option (Z * Z * Z);
}.

Definition blank : View := {| game_canvas := None; stats_canvas := None |}.

Definition view_step (v : View) (e : Event) : View :=
  match e with
  | DisplayGame grid ents pos =>
      {| game_canvas := Some (grid, ents, pos); stats_canvas := stats_canvas v |}
  | DisplayStats moves strength money =>
      {| game_canvas := game_canvas v;
         stats_canvas := Some (moves, strength, money) |}
  | ClearAll => blank
  | _ => v
  end.

(** The view after a sequence of effects, starting from empty canvases. *)
Definition shown (evs : list Event) : View := fold_left view_step evs blank.

(** The view that shows the model in state [m]. *)
Definition view_of (m : SokobanModel) : View :=
  {| game_canvas := Some (get_maze m, get_entities m, get_player_position m);
     stats_canvas := Some (get_player_moves_remaining m, get_player_strength m,
                           get_player_money m) |}.

(** The view shows the current state of the model. *)
Definition in_sync (s : ExtraFancySokoban) : Prop :=
  shown (events s) = view_of (model s).

(** Calls that change the model. *)
Definition is_mutation (e : Event) : bool :=
  match e with
  | Call (m_attempt_move _) | Call (m_attempt_purchase _) | Call m_reset => true
  | _ => false
  end.

(** A statement after which, when it completes, the view is in sync. *)
Definition ends_in_sync {A} (c : Ctl A) : Prop :=
  forall s a s', c s = (Done a, s') -> in_sync s'.

(** A statement that leaves the observation [obs] of the model as it
    was, whether it completes or raises. *)
Definition preserves {A B} (obs : SokobanModel -> B) (c : Ctl A) : Prop :=
  forall s, obs (model (c s).2) = obs (model s).

(** ** Vocabulary for loading *)

(** [[int(item) for item in items]], [None] when some [int] fails. *)
Fixpoint parse_stats (items : list string) : option (list Z) :=
  match items with
  | [] => Some []
  | item :: rest =>
      match Py.int item, parse_stats rest with
      | Some n, Some ns => Some (n :: ns)
      | _, _ => None
      end
  end.

(** The items of the first line of a file. *)
Definition header_items (line0 : string) : list string :=
  Py.split " " (Py.strip line0).

(** No item of the first line has more than 640 characters.  640 is the
    least value that the interpreter's limit on the digits of [int()]
    can be set to, so for such a line the limit, which [Py.int] leaves
    out, cannot strike. *)
Definition short_items (line0 : string) : bool :=
  forallb (fun item => (String.length item <=? 640)%nat) (header_items line0).

Definition short_header (lines : list string) : bool :=
  match lines with
  | [] => true
  | line0 :: _ => short_items line0
  end.

(** A character of a row at which [load_game_state] calls a marker as if
    it were a class: a crate or potion marker that is neither the player
    nor the wall marker. *)
Definition calls_marker `{Support} (c : ascii) : bool :=
  negb (Ascii.eqb c PLAYER) && negb (Ascii.eqb c WALL)
  && (Ascii.eqb c CRATE || Ascii.eqb c FANCY_POTION
      || Ascii.eqb c MOVE_POTION || Ascii.eqb c STRENGTH_POTION).

Definition row_calls_marker `{Support} (line : string) : bool :=
  existsb calls_marker (Py.chars (Py.strip line)).

(** How [load_game_state] ends on a file, read off the file alone. *)
Definition load_result `{Support} (lines : list string) : Result unit :=
  match lines with
  | [] => Raise Py.IndexError
  | line0 :: rows =>
      match parse_stats (header_items line0) with
      | None => Raise Py.ValueError
      | Some stats =>
          if (length stats <? 2)%nat then Raise Py.IndexError
          else if existsb row_calls_marker rows then Raise Py.TypeError
          else match rows with
               | [] => Raise Py.UnboundLocalError
               | _ => Done tt
               end
      end
  end.

(** A character that adds a wall marker to [row_maze]. *)
Definition is_wall_char `{Support} (c : ascii) : bool :=
  negb (Ascii.eqb c PLAYER) && Ascii.eqb c WALL.

(** The positions assigned for the player markers among the numbered
    characters [jcs] of row [i], in reading order. *)
Definition cells_of `{Support} (i : Z) (jcs : list (Z * ascii))
  : list Position :=
  omap (fun jc => if Ascii.eqb jc.2 PLAYER then Some (i, jc.1 + 1) else None)
       jcs.

Definition row_cells `{Support} (il : Z * string) : list Position :=
  cells_of il.1 (Py.enumerate (Py.chars (Py.strip il.2))).

(** The positions assigned for the player markers of all rows. *)
Definition player_cells `{Support} (rows : list string) : list Position :=
  concat (map row_cells (Py.enumerate rows)).

(** What [row_maze] holds at the end of a row: one wall marker for each
    wall character, then the list itself. *)
Definition row_walls `{Support} (line : string) : list RowItem :=
  (replicate (length (List.filter is_wall_char (Py.chars (Py.strip line))))
     (RMarker WALL) ++ [RSelf])%list.

(** The state after the player position was assigned for each of
    [cells] in turn. *)
Definition place (cells : list Position) (s : ExtraFancySokoban)
  : ExtraFancySokoban :=
  match last cells with
  | Some p => (update_model (with_player_position p) s).2
  | None => s
  end.

(** ** Vocabulary for saving *)

(** The first line that [save_game_state] writes, without its newline. *)
Definition header_line (m : SokobanModel) : string :=
  Py.str (get_player_strength m) ++ " " ++ Py.str (get_player_moves_remaining m).

(** No character of [s] is [c]. *)
Definition lacks (c : ascii) (s : string) : bool :=
  forallb (fun c' => negb (Ascii.eqb c' c)) (Py.chars s).

(** No character of [s] is whitespace. *)
Definition solid (s : string) : bool :=
  forallb (fun c => negb (Py.isspace c)) (Py.chars s).

(** An entity for which [save_game_state] writes a single character: a
    crate whose strength is one digit, or a potion whose marker is not
    the crate marker. *)
Definition writes_one_char `{Support} (e : Entity) : Prop :=
  match e with
  | Crate s => 0 <= s <= 9
  | Coin => False
  | APotion k => Potion_get_type k <> CRATE
  end.

(** ** Sessions *)

(** What the user does in the window: press a key, or click the Buy
    button of an item. *)
Inductive Action :=
| Press (c : string)
| Buy (item_id : string).

(** One action; an exception raised by a handler is reported by Tk and
    the window stays, with the state the handler left. *)
Definition act `{Support} `{Engine} (askyesno : string -> bool)
    (s : ExtraFancySokoban) (a : Action) : ExtraFancySokoban :=
  match a with
  | Press c => (handle_keypress askyesno c s).2
  | Buy item_id => (perform_action item_id s).2
  end.

Definition session `{Support} `{Engine} (askyesno : string -> bool)
    (actions : list Action) (s : ExtraFancySokoban) : ExtraFancySokoban :=
  fold_left (act askyesno) actions s.

(** A statement that performs no effect, whether it completes or
    raises. *)
Definition quiet {A} (c : Ctl A) : Prop :=
  forall s, events (c s).2 = events s.

(** A statement that, when it completes, has asked for the entities and
    redrawn the model as it left it, and that has performed no effect
    when it raises. *)
Definition draws_at_end {A} (c : Ctl A) : Prop :=
  forall s,
    events (c s).2
    = (events s
       ++ match (c s).1 with
          | Done _ => Call m_get_entities :: redraw_events (model (c s).2)
          | Raise _ => []
          end)%list.

(** The controller around [game] after its first redraw. *)
Definition shown_game : ExtraFancySokoban := (redraw (fresh game)).2.

(** A file of two rows for the corridor: a wall row, and a row with the
    player marker between walls. *)
Definition small_file : list string :=
  ["2 5" ++ str1 nl; "WWW" ++ str1 nl; "WPW" ++ str1 nl].

(** [ExtraFancySokoban.__init__], given the model that
    [SokobanModel(maze_file)] built: the first redraw, and the shop.
    The attributes [char], [player_position] and [moves_remaining] do
    not exist yet. *)
Definition construct `{Support} `{Engine} (m : SokobanModel)
  : ExtraFancySokoban * list BuyableItem :=
  ((redraw (fresh m)).2, shop m).

(** The names that [create_shop_items] gives to the potion kinds. *)
Definition potion_name (k : Potion) : string :=
  match k with
  | StrengthPotion => "Strength Potion"
  | MovePotion => "Move Potion"
  | FancyPotion => "Fancy Potion"
  end.

(** ** Python primitives on examples *)

Example strip_line : Py.strip (" W P " ++ str1 nl) = "W P".
Proof. reflexivity. Qed.

Example split_stats : Py.split " " "3  40" = ["3"; ""; "40"].
Proof. reflexivity. Qed.

Example int_examples :
  Py.int " 007 " = Some 7 /\ Py.int "-1_0" = Some (-10) /\ Py.int "" = None
  /\ Py.int "1__0" = None /\ Py.int "x" = None /\ Py.int "+" = None
  /\ Py.int "3 4" = None /\ Py.int "_1" = None /\ Py.int "1_" = None.
Proof. repeat split; reflexivity. Qed.

(** The separators FS to US are stripped by [strip()] and refused by
    [int()]; NEL and the no-break space are whitespace for both. *)
Example space_examples :
  Py.strip (String "028" "5") = "5" /\ Py.int (String "028" "5") = None
  /\ Py.strip (String "160" "2 5") = "2 5"
  /\ Py.int (String "160" (String "133" "25")) = Some 25
  /\ Py.int ("5" ++ String "160" "") = Some 5
  /\ Py.int ("5" ++ String "127" "") = None
  /\ Py.int ("5" ++ String "000" "") = None.
Proof. repeat split; reflexivity. Qed.

Example str_examples : Py.str 0 = "0" /\ Py.str 12 = "12" /\ Py.str (-3) = "-3".
Proof. repeat split; reflexivity. Qed.

Example readlines_example :
  Py.readlines ("a" ++ str1 nl ++ "bc" ++ str1 nl ++ str1 nl ++ "d")
  = ["a" ++ str1 nl; "bc" ++ str1 nl; str1 nl; "d"].
Proof. reflexivity. Qed.

(** ** Keypresses *)

(** Runs the straight-line part of a controller method. *)
Ltac ctl_step :=
  repeat progress
    unfold bind, ret, raise, query, command, emit, update_model, set_char,
      set_player_position, set_moves_remaining;
  cbn beta iota delta
    [model char player_position moves_remaining events fst snd].

Section KeypressFacts.

Context `{Support} `{Engine}.
Variable askyesno : string -> bool.

(** What [handle_keypress] comes to on a movement key: the move, then
    the win query, then either the dialog or the moves query. *)
Lemma handle_keypress_move c s :
  c ∈ movement_keys ->
  let m' := attempt_move c (model s) in
  let s1 := {| model := m'; char := Some c;
               player_position := player_position s;
               moves_remaining := moves_remaining s;
               events := events s ++ [Call (m_attempt_move c); Call m_has_won] |} in
  let s2 := {| model := m'; char := Some c;
               player_position := player_position s;
               moves_remaining := moves_remaining s;
               events := events s ++ [Call (m_attempt_move c); Call m_has_won;
                                      Call m_get_player_moves_remaining] |} in
  let s3 := {| model := m'; char := Some c;
               player_position := player_position s;
               moves_remaining := moves_remaining s;
               events := events s ++ [Call (m_attempt_move c); Call m_has_won;
                                      Call m_get_player_moves_remaining;
                                      Call m_has_won] |} in
  handle_keypress askyesno c s =
    if has_won m' then chosen askyesno win_message s1
    else if get_player_moves_remaining m' =? 0
         then chosen askyesno lose_message s3
         else redraw s2.
Proof.
  intros Hc m' s1 s2 s3. subst s1 s2 s3.
  unfold handle_keypress. fold movement_keys.
  rewrite bool_decide_eq_true_2 by exact Hc.
  ctl_step. fold m'. destruct (has_won m') eqn:Hwon.
  - rewrite <- app_assoc. reflexivity.
  - ctl_step. fold m'.
    destruct (get_player_moves_remaining m' =? 0) eqn:Hmoves.
    + ctl_step. fold m'. rewrite Hwon. cbn [negb].
      rewrite <- !app_assoc. reflexivity.
    + ctl_step. rewrite <- !app_assoc. reflexivity.
Qed.

Lemma performed_app {A} (c : Ctl A) s new :
  events (c s).2 = (events s ++ new)%list -> performed c s = new.
Proof. unfold performed. intros ->. apply drop_app_length. Qed.

Lemma redraw_run s :
  redraw s =
    (Done tt, {| model := model s; char := char s;
                 player_position := player_position s;
                 moves_remaining := moves_remaining s;
                 events := events s ++ redraw_events (model s) |}).
Proof.
  unfold redraw, redraw_events. ctl_step.
  rewrite <- !app_assoc. reflexivity.
Qed.

Lemma chosen_run message s :
  chosen askyesno message s =
    (Done tt,
     {| model := reset (model s); char := char s;
        player_position :=
          if askyesno message then Some (0, 0) else player_position s;
        moves_remaining :=
          if askyesno message then Some 10 else moves_remaining s;
        events := events s ++ AskYesNo message
                    :: chosen_events (askyesno message) (model s) |}).
Proof.
  unfold chosen, chosen_events.
  destruct (askyesno message).
  - ctl_step. rewrite redraw_run. ctl_step.
    rewrite <- !app_assoc. reflexivity.
  - ctl_step. rewrite <- !app_assoc. reflexivity.
Qed.

(** The effects of a movement key, case by case. *)
Lemma handle_keypress_performed c s :
  c ∈ movement_keys ->
  let m' := attempt_move c (model s) in
  (handle_keypress askyesno c s).1 = Done tt
  /\ performed (handle_keypress askyesno c) s
     = Call (m_attempt_move c) :: Call m_has_won
         :: (if has_won m' then
               AskYesNo win_message
                 :: chosen_events (askyesno win_message) m'
             else
               Call m_get_player_moves_remaining
                 :: (if get_player_moves_remaining m' =? 0 then
                       Call m_has_won :: AskYesNo lose_message
                         :: chosen_events (askyesno lose_message) m'
                     else redraw_events m')).
Proof.
  intros Hc m'. unfold performed.
  rewrite (handle_keypress_move c s Hc). cbv zeta. fold m'.
  destruct (has_won m').
  - rewrite chosen_run. cbn [fst snd events]. split; [reflexivity|].
    rewrite <- app_assoc, drop_app_length. reflexivity.
  - destruct (get_player_moves_remaining m' =? 0).
    + rewrite chosen_run. cbn [fst snd events]. split; [reflexivity|].
      rewrite <- app_assoc, drop_app_length. reflexivity.
    + rewrite redraw_run. cbn [fst snd events]. split; [reflexivity|].
      rewrite <- app_assoc, drop_app_length. reflexivity.
Qed.

(** C8: a keypress whose character is none of 'w', 'a', 's', 'd' only
    records the character in [self.char]: no method of the model is
    called, the model is unchanged, nothing is drawn, no dialog is
    shown. *)
Theorem handle_keypress_other_key c s :
  c ∉ movement_keys ->
  handle_keypress askyesno c s =
    (Done tt, {| model := model s; char := Some c;
                 player_position := player_position s;
                 moves_remaining := moves_remaining s;
                 events := events s |}).
Proof.
  intros Hc. unfold handle_keypress. fold movement_keys.
  rewrite bool_decide_eq_false_2 by exact Hc.
  ctl_step. reflexivity.
Qed.

(** C5: after the [attempt_move] of a movement key, the loss dialog is
    shown if and only if, on the model as the move left it,
    [moves_remaining == 0] and not [has_won()]. *)
Theorem loss_reported_iff_loss_condition c s :
  c ∈ movement_keys ->
  AskYesNo lose_message ∈ performed (handle_keypress askyesno c) s
  <-> loss_condition (attempt_move c (model s)) = true.
Proof.
  intros Hc.
  destruct (handle_keypress_performed c s Hc) as [_ ->].
  unfold loss_condition.
  destruct (has_won (attempt_move c (model s))) eqn:Hwon.
  - rewrite andb_false_r. split; [|discriminate].
    unfold chosen_events, redraw_events, win_message, lose_message.
    intros Hin. exfalso.
    destruct (askyesno _);
      repeat (apply elem_of_cons in Hin as [Hin|Hin]; [discriminate Hin|]);
      inversion Hin.
  - rewrite andb_true_r.
    destruct (get_player_moves_remaining _ =? 0) eqn:Hmoves.
    + split; [reflexivity|]. intros _.
      do 4 apply list_elem_of_further. apply list_elem_of_here.
    + split; [|discriminate].
      unfold redraw_events. intros Hin. exfalso.
      repeat (apply elem_of_cons in Hin as [Hin|Hin]; [discriminate Hin|]).
      inversion Hin.
Qed.

(** C7: a movement key never makes [handle_keypress] raise; after the
    [attempt_move] the shell asks [has_won] (and [moves_remaining] when
    the game is not won), nothing else, and what follows is decided by
    the two predicates: the win dialog when won, the loss dialog when
    the loss condition holds, a redraw of the model otherwise.  The
    engine itself only changes state; play stops, if at all, in
    [chosen]. *)
Theorem outcome_checked_after_every_move c s :
  c ∈ movement_keys ->
  let m' := attempt_move c (model s) in
  (handle_keypress askyesno c s).1 = Done tt
  /\ exists queries outcome,
       performed (handle_keypress askyesno c) s
       = Call (m_attempt_move c) :: (queries ++ outcome)%list
       /\ head queries = Some (Call m_has_won)
       /\ forallb is_outcome_query queries = true
       /\ outcome =
            if has_won m' then
              AskYesNo win_message
                :: chosen_events (askyesno win_message) m'
            else if loss_condition m' then
              AskYesNo lose_message
                :: chosen_events (askyesno lose_message) m'
            else redraw_events m'.
Proof.
  intros Hc m'.
  destruct (handle_keypress_performed c s Hc) as [Hdone ->].
  split; [exact Hdone|]. fold m'. unfold loss_condition.
  destruct (has_won m') eqn:Hwon.
  - exists [Call m_has_won]. eexists. repeat split.
  - destruct (get_player_moves_remaining m' =? 0) eqn:Hmoves; cbn [andb negb].
    + exists [Call m_has_won; Call m_get_player_moves_remaining;
              Call m_has_won].
      eexists. repeat split.
    + exists [Call m_has_won; Call m_get_player_moves_remaining].
      eexists. repeat split.
Qed.

(** C10: when the move of a movement key ends in a win or in a loss,
    everything up to the dialog is the move and outcome queries: no
    redraw of that move.  After the dialog the view is redrawn only on
    the answer yes, after [reset], and it shows the reset model; on the
    answer no the window is destroyed without any redraw. *)
Theorem no_redraw_on_outcome c s :
  c ∈ movement_keys ->
  let m' := attempt_move c (model s) in
  has_won m' = true \/ loss_condition m' = true ->
  exists queries message,
    performed (handle_keypress askyesno c) s
    = Call (m_attempt_move c)
        :: (queries
            ++ AskYesNo message
               :: (if askyesno message
                   then Call m_reset :: ClearAll :: redraw_events (reset m')
                   else [ClearAll; Call m_reset; Destroy]))%list
    /\ forallb is_outcome_query queries = true
    /\ message = (if has_won m' then win_message else lose_message).
Proof.
  intros Hc m' Hend.
  destruct (handle_keypress_performed c s Hc) as [_ ->].
  fold m'. unfold loss_condition in Hend.
  destruct (has_won m') eqn:Hwon.
  - exists [Call m_has_won], win_message. repeat split.
  - destruct Hend as [Hend|Hend]; [discriminate|].
    rewrite andb_true_r in Hend. rewrite Hend.
    exists [Call m_has_won; Call m_get_player_moves_remaining;
            Call m_has_won], lose_message.
    repeat split.
Qed.

End KeypressFacts.

(** ** Loading *)

Create HintDb keeps discriminated.

Section LoadFacts.

Context `{Support}.

Lemma keeps_ret {A} (a : A) : keeps_entities (ret a).
Proof. intros s. reflexivity. Qed.

Lemma keeps_raise {A} e : keeps_entities (@raise A e).
Proof. intros s. reflexivity. Qed.

Lemma keeps_bind {A B} (c : Ctl A) (k : A -> Ctl B) :
  keeps_entities c -> (forall a, keeps_entities (k a)) ->
  keeps_entities (bind c k).
Proof.
  intros Hc Hk s. unfold bind. specialize (Hc s).
  destruct (c s) as [[a|e] s']; cbn [snd] in *.
  - rewrite Hk. exact Hc.
  - exact Hc.
Qed.

Lemma keeps_emit e : keeps_entities (emit e).
Proof. intros s. reflexivity. Qed.

Lemma keeps_update_model f :
  (forall m, get_entities (f m) = get_entities m) ->
  keeps_entities (update_model f).
Proof. intros Hf s. apply Hf. Qed.

Lemma keeps_query {A} f (get : SokobanModel -> A) :
  keeps_entities (query f get).
Proof.
  apply keeps_bind; [apply keeps_emit|]. intros _ s. reflexivity.
Qed.

Lemma keeps_for_each {A L} (body : A -> L -> Ctl L) l :
  (forall x loc, keeps_entities (body x loc)) ->
  forall loc, keeps_entities (for_each body l loc).
Proof.
  intros Hbody. induction l as [|x l IH]; intros loc; cbn [for_each].
  - apply keeps_ret.
  - apply keeps_bind; [apply Hbody | exact IH].
Qed.

Hint Resolve keeps_ret keeps_raise keeps_emit keeps_query : keeps.
Hint Extern 2 (keeps_entities (bind _ _)) =>
  apply keeps_bind; [|intros ?] : keeps.
Hint Extern 2 (keeps_entities (update_model _)) =>
  apply keeps_update_model; intros ?; reflexivity : keeps.
Hint Extern 3 (keeps_entities (if ?b then _ else _)) => destruct b : keeps.
Hint Extern 3 (keeps_entities (match ?o with Some _ => _ | None => _ end)) =>
  destruct o : keeps.

Lemma keeps_redraw : keeps_entities redraw.
Proof. unfold redraw. auto 20 with keeps. Qed.

Lemma keeps_load_char i jc loc : keeps_entities (load_char i jc loc).
Proof.
  unfold load_char, call_str. destruct jc as [j char].
  auto 20 with keeps.
Qed.

Lemma keeps_load_line il bound : keeps_entities (load_line il bound).
Proof.
  unfold load_line. destruct il as [i line].
  apply keeps_bind; [|auto with keeps].
  apply keeps_for_each. apply keeps_load_char.
Qed.

(** C9: whatever the file holds and whether the load completes or
    raises, the entity registry of the model is afterwards what it was
    before; what the loop collects stays in its local dictionary. *)
Theorem load_keeps_entities lines s :
  get_entities (model (load_game_state lines s).2) = get_entities (model s).
Proof.
  revert s. change (keeps_entities (load_game_state lines)).
  unfold load_game_state.
  apply keeps_bind; [destruct lines; auto with keeps|]. intros line0.
  apply keeps_bind.
  { apply keeps_for_each. intros item acc.
    destruct (Py.int item); auto with keeps. }
  intros player_stats.
  apply keeps_bind; [auto with keeps|]. intros _.
  apply keeps_bind; [auto with keeps|]. intros _.
  apply keeps_bind.
  { apply keeps_for_each. apply keeps_load_line. }
  intros bound.
  apply keeps_bind; [auto with keeps|]. intros _.
  apply keeps_bind; [auto with keeps|]. intros _.
  apply keeps_redraw.
Qed.

(** Reading the stats stops at the first item that is no integer, and
    the state is as before. *)
Lemma parse_stats_fault items :
  forallb (fun item => bool_decide (is_Some (Py.int item))) items = false ->
  forall acc s,
    for_each (fun item acc =>
                match Py.int item with
                | Some n => ret (acc ++ [n])%list
                | None => raise Py.ValueError
                end) items acc s
    = (Raise Py.ValueError, s).
Proof.
  induction items as [|item items IH]; cbn [forallb for_each];
    [discriminate|].
  intros Hbad acc s. unfold bind at 1.
  destruct (Py.int item) as [n|] eqn:Hitem.
  - cbn [ret]. apply IH.
    rewrite bool_decide_eq_true_2 in Hbad by eauto. exact Hbad.
  - reflexivity.
Qed.

(** C3, as amended: a file without a first line makes the load raise
    [IndexError], a first line with an item that [int()] rejects makes
    it raise [ValueError]; in both cases the controller and its model
    are exactly as before.  No other check is made, and there is no
    [CorruptSaveError]. *)
Theorem load_header_fault lines e s :
  header_fault lines = Some e ->
  load_game_state lines s = (Raise e, s).
Proof.
  unfold header_fault, load_game_state.
  destruct lines as [|line0 rest].
  - intros [= <-]. reflexivity.
  - destruct (forallb _ _) eqn:Hitems; [discriminate|].
    intros [= <-]. unfold bind at 1 2. cbn [ret].
    rewrite parse_stats_fault by exact Hitems. reflexivity.
Qed.

End LoadFacts.

(** ** The shop *)

Section ShopFacts.

Context `{Support}.

(** Any item id but the literal "STRENGTH_POTION" is passed on to
    [attempt_purchase], and the view is redrawn. *)
Lemma perform_action_purchase `{Engine} item_id s :
  item_id <> "STRENGTH_POTION" ->
  perform_action item_id s =
    (Done None,
     {| model := attempt_purchase item_id (model s); char := char s;
        player_position := player_position s;
        moves_remaining := moves_remaining s;
        events := events s ++ Call (m_attempt_purchase item_id)
                    :: redraw_events (attempt_purchase item_id (model s)) |}).
Proof.
  intros Hid. unfold perform_action.
  apply String.eqb_neq in Hid. rewrite Hid.
  ctl_step. rewrite redraw_run. ctl_step.
  rewrite <- app_assoc. reflexivity.
Qed.

(** Modelled from the spec: with distinct potion markers, the type
    marker of a kind is the id of that kind in the catalogue. *)
Lemma kind_of_id_get_type (R : Rules) k :
  NoDup [STRENGTH_POTION; MOVE_POTION; FANCY_POTION] ->
  SpecEngine.kind_of_id (str1 (Potion_get_type k)) = Some k.
Proof.
  intros Hdistinct.
  apply NoDup_cons in Hdistinct as [Hs Hrest].
  apply NoDup_cons in Hrest as [Hm _].
  assert (MOVE_POTION <> STRENGTH_POTION) as Hms
    by (intros Heq; apply Hs; rewrite <- Heq; left).
  assert (FANCY_POTION <> STRENGTH_POTION) as Hfs
    by (intros Heq; apply Hs; rewrite <- Heq; right; left).
  assert (FANCY_POTION <> MOVE_POTION) as Hfm
    by (intros Heq; apply Hm; rewrite <- Heq; left).
  unfold SpecEngine.kind_of_id, str1.
  destruct k; cbn [find Potion_get_type String.eqb];
    rewrite ?Ascii.eqb_refl; try reflexivity.
  - apply Ascii.eqb_neq in Hms. rewrite Hms. reflexivity.
  - apply Ascii.eqb_neq in Hfs, Hfm. rewrite Hfs, Hfm. reflexivity.
Qed.

(** C6: the shop that [__init__] builds has one Buy button for every
    entry of the catalogue and no other.  The command of the button of
    an entry calls [attempt_purchase] with the id of that entry and
    redraws; nothing else touches the model.  With the
    [attempt_purchase] of the spec, the money goes down by the price of
    the entry when it covers the price and stays as it is when it does
    not. *)
Theorem buy_button_purchases (R : Rules) (s : ExtraFancySokoban) :
  let engine := SpecEngine.engine R in
  NoDup [STRENGTH_POTION; MOVE_POTION; FANCY_POTION] ->
  length (shop (model s)) = length (get_shop_items (model s))
  /\ forall (i : nat) (b : BuyableItem),
       shop (model s) !! i = Some b ->
       exists item_id,
         get_shop_items (model s) !! i = Some (item_id, amount b)
         /\ callback b s =
              (Done None,
               {| model := attempt_purchase item_id (model s);
                  char := char s;
                  player_position := player_position s;
                  moves_remaining := moves_remaining s;
                  events := events s ++ Call (m_attempt_purchase item_id)
                              :: redraw_events
                                   (attempt_purchase item_id (model s)) |})
         /\ get_player_money (attempt_purchase item_id (model s)) =
              if get_player_money (model s) <? amount b
              then get_player_money (model s)
              else get_player_money (model s) - amount b.
Proof.
  intros engine Hdistinct. unfold shop, create_shop_items.
  split; [apply length_map|]. intros i b Hb.
  change (map ?f ?l) with (f <$> l) in Hb.
  rewrite list_lookup_fmap in Hb.
  destruct (get_shop_items (model s) !! i) as [[key value]|] eqn:Hentry;
    [|discriminate].
  cbn [fmap option_fmap option_map] in Hb. injection Hb as <-.
  cbn [callback amount]. exists key. split; [reflexivity|].
  cbn [get_shop_items engine SpecEngine.engine] in Hentry.
  unfold SpecEngine.shop_items in Hentry.
  apply list_elem_of_lookup_2, list_elem_of_fmap in Hentry
    as [k [[= -> ->] _]].
  split.
  - apply perform_action_purchase. unfold str1. destruct k; discriminate.
  - cbn [attempt_purchase engine SpecEngine.engine].
    unfold SpecEngine.purchase.
    rewrite (kind_of_id_get_type R k Hdistinct).
    destruct (get_player_money (model s) <? price R k); [reflexivity|].
    unfold get_player_money. destruct k; cbn; lia.
Qed.

End ShopFacts.

(** ** The statements at concrete games *)

Lemma d_is_movement_key : "d" ∈ movement_keys.
Proof. apply (bool_decide_unpack _). vm_compute. exact I. Defined.

Lemma x_is_no_movement_key : "x" ∉ movement_keys.
Proof. apply (bool_decide_unpack _). vm_compute. exact I. Defined.

Lemma letters_distinct :
  NoDup [@STRENGTH_POTION letters; @MOVE_POTION letters; @FANCY_POTION letters].
Proof. apply (bool_decide_unpack _). vm_compute. exact I. Defined.

Lemma handle_keypress_other_key_witness :
  ("x" ∉ movement_keys)
  /\ @handle_keypress letters_engine (fun _ => true) "x" (fresh game)
     = (Done tt, {| model := game; char := Some "x"; player_position := None;
                    moves_remaining := None; events := [] |}).
Proof.
  split; [exact x_is_no_movement_key|].
  apply (@handle_keypress_other_key letters_engine (fun _ => true) "x"
           (fresh game) x_is_no_movement_key).
Defined.

Lemma loss_reported_witness :
  "d" ∈ movement_keys
  /\ @loss_condition letters_engine
       (@attempt_move letters_engine "d" last_move_game) = true
  /\ (AskYesNo lose_message
        ∈ performed (@handle_keypress letters_engine (fun _ => false) "d")
            (fresh last_move_game)
      <-> @loss_condition letters_engine
            (@attempt_move letters_engine "d" (model (fresh last_move_game)))
          = true).
Proof.
  split; [exact d_is_movement_key|]. split; [vm_compute; reflexivity|].
  apply (@loss_reported_iff_loss_condition letters_engine (fun _ => false) "d"
           (fresh last_move_game) d_is_movement_key).
Defined.

Lemma outcome_checked_witness :
  "d" ∈ movement_keys
  /\ (@handle_keypress letters_engine (fun _ => true) "d" (fresh game)).1
     = Done tt.
Proof.
  split; [exact d_is_movement_key|].
  apply (proj1 (@outcome_checked_after_every_move letters_engine
                  (fun _ => true) "d" (fresh game) d_is_movement_key)).
Defined.

Lemma no_redraw_on_outcome_witness :
  let m' := @attempt_move letters_engine "d" game in
  "d" ∈ movement_keys
  /\ @has_won letters_engine m' = true
  /\ exists queries message,
       performed (@handle_keypress letters_engine (fun _ => false) "d")
         (fresh game)
       = Call (m_attempt_move "d")
           :: (queries ++ [AskYesNo message; ClearAll; Call m_reset; Destroy])%list
       /\ forallb is_outcome_query queries = true
       /\ message = win_message.
Proof.
  assert (@has_won letters_engine (@attempt_move letters_engine "d" game)
          = true) as Hwon by (vm_compute; reflexivity).
  split; [exact d_is_movement_key|]. split; cbv zeta; [exact Hwon|].
  destruct (@no_redraw_on_outcome letters_engine (fun _ => false) "d"
              (fresh game) d_is_movement_key (or_introl Hwon))
    as (queries & message & Hrun & Hqueries & Hmessage).
  exists queries, message. cbn [model fresh] in Hmessage.
  rewrite Hwon in Hmessage. repeat split; assumption.
Defined.

Lemma load_header_fault_witness :
  header_fault ["5 x"] = Some Py.ValueError
  /\ @load_game_state letters ["5 x"] (fresh game)
     = (Raise Py.ValueError, fresh game).
Proof.
  assert (header_fault ["5 x"] = Some Py.ValueError) as Hfault
    by (vm_compute; reflexivity).
  split; [exact Hfault|].
  apply (@load_header_fault letters ["5 x"] Py.ValueError (fresh game) Hfault).
Defined.

Lemma buy_button_witness :
  let s := fresh last_move_game in
  let b := {| item := Some "Strength Potion"; amount := 5;
              callback := @perform_action letters letters_engine "S" |} in
  NoDup [@STRENGTH_POTION letters; @MOVE_POTION letters; @FANCY_POTION letters]
  /\ @shop letters letters_engine (model s) !! 0%nat = Some b
  /\ length (@shop letters letters_engine (model s)) = 3%nat
  /\ exists item_id,
       @get_shop_items letters_engine (model s) !! 0%nat = Some (item_id, 5)
       /\ (callback b s).1 = Done None
       /\ get_player_money
            (@attempt_purchase letters_engine item_id (model s)) = 1.
Proof.
  intros s b.
  assert (@shop letters letters_engine (model s) !! 0%nat = Some b) as Hb
    by reflexivity.
  destruct (@buy_button_purchases letters rules s letters_distinct)
    as [Hlength Hbuttons].
  split; [exact letters_distinct|]. split; [exact Hb|].
  split; [exact Hlength|].
  destruct (Hbuttons 0%nat b Hb) as (item_id & Hentry & Hrun & Hmoney).
  exists item_id. split; [exact Hentry|]. split.
  - exact (f_equal fst Hrun).
  - exact Hmoney.
Defined.

(** The first button of the shop, bought with 6 in the purse. *)
Example buy_strength_potion :
  let s := fresh last_move_game in
  (item <$> @shop letters letters_engine (model s))
  = [Some "Strength Potion"; Some "Move Potion"; Some "Fancy Potion"]
  /\ (amount <$> @shop letters letters_engine (model s)) = [5; 5; 10]
  /\ forall b, @shop letters letters_engine (model s) !! 0%nat = Some b ->
       get_player_money (model (callback b s).2) = 1
       /\ get_player_strength (model (callback b s).2) = 3.
Proof.
  cbv zeta. repeat split; intros; simplify_eq/=; reflexivity.
Qed.

(** ** Saving and loading at concrete games *)

(** C2: for the game with a coin at (1,2), the row of the coin is
    written with four characters for its five cells: nothing at all is
    written for the coin.  A crate of strength 12 is written with two
    characters. *)
Theorem save_skips_coin_cell :
  Py.readlines (@save_game_state letters coin_game)
  = ["2 5" ++ str1 nl; "WWWWW" ++ str1 nl; "WP W" ++ str1 nl;
     "WWWWW" ++ str1 nl]
  /\ Py.readlines (@save_game_state letters potion_game)
     = ["2 5" ++ str1 nl; "WWWWW" ++ str1 nl; "WPM12W" ++ str1 nl;
        "WWWWW" ++ str1 nl].
Proof. split; vm_compute; reflexivity. Qed.

(** C1: loading the file that [save_game_state] wrote for [game] does
    not give [game] back.  Loaded into the very engine that was saved,
    the player ends at (1,2), on the crate, instead of (1,1).  Loaded
    into a later moment of play, strength and moves stay those of the
    later moment, the crate is not put back at (1,2), and the stats of
    the file end up in two attributes that no accessor reads. *)
Theorem load_of_save_differs :
  let file := Py.readlines (@save_game_state letters game) in
  let back := @load_game_state letters file (fresh game) in
  let late := @load_game_state letters file (fresh later_game) in
  back.1 = Done tt
  /\ get_player_position (model back.2) = (1, 2)
  /\ get_player_position game = (1, 1)
  /\ ~ same_saved_state (model back.2) game
  /\ late.1 = Done tt
  /\ get_player_strength (model late.2) = 1
  /\ get_player_moves_remaining (model late.2) = 9
  /\ player_strength (model late.2) = Some 2
  /\ player_moves_remaining (model late.2) = Some 5
  /\ get_entities (model late.2) !! (1, 2) = None
  /\ ~ same_saved_state (model late.2) game.
Proof.
  cbv zeta. repeat split; try (vm_compute; reflexivity).
  - intros (_ & _ & Hpos & _). vm_compute in Hpos. discriminate Hpos.
  - intros (Hstrength & _). vm_compute in Hstrength. discriminate Hstrength.
Qed.

(** C4: decoding well-formed files.  For the file of [game] the player
    marker is in row 1, column 1, and the position assigned is (1,2);
    the digit of the crate is skipped, the entity registry and the maze
    of the model stay those of the engine loaded into, and the attribute
    [maze] receives the wall markers of the last row followed by the
    list itself.  For a file with a potion marker the load raises
    [TypeError] at the marker. *)
Theorem load_does_not_decode :
  let file := ["2 5" ++ str1 nl; "WWWWW" ++ str1 nl; "WP1 W" ++ str1 nl;
               "WWWWW" ++ str1 nl] in
  let potion_file :=
    ["2 5" ++ str1 nl; "WWWWW" ++ str1 nl; "WPM W" ++ str1 nl;
     "WWWWW" ++ str1 nl] in
  let r := @load_game_state letters file (fresh later_game) in
  r.1 = Done tt
  /\ get_player_position (model r.2) = (1, 2)
  /\ get_entities (model r.2) = get_entities later_game
  /\ get_entities (model r.2) !! (1, 2) = None
  /\ get_maze (model r.2) = get_maze later_game
  /\ maze (model r.2)
     = Some [RMarker "W"; RMarker "W"; RMarker "W"; RMarker "W"; RMarker "W";
             RSelf]
  /\ get_player_strength (model r.2) = 1
  /\ (@load_game_state letters potion_file (fresh later_game)).1
     = Raise Py.TypeError.
Proof. cbv zeta. repeat split; vm_compute; reflexivity. Qed.

(** C3 fails as the spec states it: a file whose rows have different
    lengths and hold an unknown character is loaded without any error,
    and the model is changed. *)
Lemma load_accepts_malformed_file :
  let file := ["2 5" ++ str1 nl; "WW?" ++ str1 nl; "WPW W" ++ str1 nl] in
  let r := @load_game_state letters file (fresh game) in
  r.1 = Done tt /\ model r.2 <> game.
Proof.
  cbv zeta. split; [vm_compute; reflexivity|].
  intros Heq. apply (f_equal maze) in Heq. vm_compute in Heq.
  discriminate Heq.
Qed.

(** A first line with one integer only: [IndexError], after the
    attribute [player_strength] has been assigned. *)
Example load_single_stat :
  let r := @load_game_state letters ["7" ++ str1 nl] (fresh game) in
  r.1 = Raise Py.IndexError /\ player_strength (model r.2) = Some 7.
Proof. split; vm_compute; reflexivity. Qed.

(** A file with the first line only: the name [row_maze] is not bound
    when it is read after the loop. *)
Example load_no_rows :
  (@load_game_state letters ["2 5" ++ str1 nl] (fresh game)).1
  = Raise Py.UnboundLocalError.
Proof. vm_compute. reflexivity. Qed.

(** The literal id of the first branch of [perform_action]: the player
    is fetched, then reading [EFFECT] off the marker raises; the model is
    not changed. *)
Example perform_action_literal_id :
  let r := @perform_action letters letters_engine "STRENGTH_POTION"
             (fresh game) in
  r.1 = Raise Py.AttributeError /\ model r.2 = game
  /\ events r.2 = [Call m_get_player].
Proof. repeat split. Qed.

(** Pushing the crate onto the goal wins; the answer yes resets and
    redraws the level. *)
Example win_then_play_again :
  performed (@handle_keypress letters_engine (fun _ => true) "d") (fresh game)
  = ([Call (m_attempt_move "d"); Call m_has_won; AskYesNo win_message;
      Call m_reset; ClearAll] ++ redraw_events game)%list.
Proof. vm_compute. reflexivity. Qed.

(** ** The view follows the model *)

Section ViewFacts.

Context `{Support} `{Engine}.
Variable askyesno : string -> bool.

Lemma shown_app evs new :
  shown (evs ++ new) = fold_left view_step new (shown evs).
Proof. apply fold_left_app. Qed.

Lemma view_after_redraw v m :
  fold_left view_step (redraw_events m) v = view_of m.
Proof. reflexivity. Qed.

Lemma shown_ends_with_redraw evs pre m :
  shown (evs ++ pre ++ redraw_events m) = view_of m.
Proof. rewrite app_assoc, shown_app. apply view_after_redraw. Qed.

Lemma redraw_in_sync : ends_in_sync redraw.
Proof.
  intros s a s'. rewrite redraw_run. intros [= _ <-].
  unfold in_sync. cbn [events model]. rewrite shown_app.
  apply view_after_redraw.
Qed.

Lemma bind_in_sync {A B} (c : Ctl A) (k : A -> Ctl B) :
  (forall a, ends_in_sync (k a)) -> ends_in_sync (bind c k).
Proof.
  intros Hk s b s'. unfold bind.
  destruct (c s) as [[a|e] s1]; [apply Hk | discriminate].
Qed.

(** X1: a keypress keeps the view in sync with the model: if the view
    showed the model before, it shows the model afterwards, unless the
    window was destroyed (the answer no to the dialog). *)
Theorem handle_keypress_in_sync c s :
  in_sync s ->
  Destroy ∉ performed (handle_keypress askyesno c) s ->
  in_sync (handle_keypress askyesno c s).2.
Proof.
  intros Hsync Halive.
  destruct (decide (c ∈ movement_keys)) as [Hc|Hc].
  - destruct (handle_keypress_performed askyesno c s Hc) as [_ Hrun].
    rewrite Hrun in Halive. clear Hrun.
    rewrite (handle_keypress_move askyesno c s Hc). cbv zeta.
    set (m' := attempt_move c (model s)) in *.
    assert (forall message pre,
              Destroy ∉ chosen_events (askyesno message) m' ->
              in_sync (chosen askyesno message
                         {| model := m'; char := Some c;
                            player_position := player_position s;
                            moves_remaining := moves_remaining s;
                            events := events s ++ pre |}).2) as Hchosen.
    { intros message pre Hyes. rewrite chosen_run. unfold in_sync.
      cbn [snd events model]. unfold chosen_events in *.
      destruct (askyesno message).
      - apply (shown_ends_with_redraw _
                 [AskYesNo message; Call m_reset; ClearAll]).
      - exfalso. apply Hyes. do 2 apply list_elem_of_further.
        apply list_elem_of_here. }
    destruct (has_won m').
    + apply Hchosen. intros Hin. apply Halive.
      do 3 apply list_elem_of_further. exact Hin.
    + destruct (get_player_moves_remaining m' =? 0).
      * apply Hchosen. intros Hin. apply Halive.
        do 5 apply list_elem_of_further. exact Hin.
      * rewrite redraw_run. eapply redraw_in_sync. apply redraw_run.
  - unfold handle_keypress. fold movement_keys.
    rewrite bool_decide_eq_false_2 by exact Hc. ctl_step. exact Hsync.
Qed.

(** X2: buying keeps the view in sync with the model, for every item
    id: after [perform_action] the view shows the model if it did
    before, also when the call raises. *)
Theorem perform_action_in_sync item_id s :
  in_sync s -> in_sync (perform_action item_id s).2.
Proof.
  intros Hsync. unfold perform_action.
  destruct (String.eqb item_id "STRENGTH_POTION").
  - unfold getattr_str. ctl_step. unfold in_sync in *.
    cbn [events model]. rewrite shown_app. cbn [fold_left view_step].
    exact Hsync.
  - ctl_step. rewrite redraw_run. ctl_step. unfold in_sync.
    cbn [events model]. rewrite <- app_assoc.
    apply (shown_ends_with_redraw _ [Call (m_attempt_purchase item_id)]).
Qed.

(** X3: [perform_action] raises exactly for the item id
    "STRENGTH_POTION": then it is [AttributeError], after the player
    was fetched, and the model is untouched.  For every other id it
    returns [None], the model is the one [attempt_purchase] left, and
    [attempt_purchase] is the only call that changes the model. *)
Theorem perform_action_outcome item_id s :
  let r := perform_action item_id s in
  if String.eqb item_id "STRENGTH_POTION" then
    r.1 = Raise Py.AttributeError
    /\ model r.2 = model s
    /\ performed (perform_action item_id) s = [Call m_get_player]
  else
    r.1 = Done None
    /\ model r.2 = attempt_purchase item_id (model s)
    /\ List.filter is_mutation (performed (perform_action item_id) s)
       = [Call (m_attempt_purchase item_id)].
Proof.
  cbv zeta. unfold performed, perform_action.
  destruct (String.eqb item_id "STRENGTH_POTION").
  - unfold getattr_str. ctl_step. repeat split.
    apply drop_app_length.
  - ctl_step. rewrite redraw_run. ctl_step. repeat split.
    rewrite <- app_assoc, drop_app_length. reflexivity.
Qed.

(** X4: when [load_game_state] completes, the view shows the model as
    the load left it. *)
Theorem load_in_sync lines s :
  (load_game_state lines s).1 = Done tt ->
  in_sync (load_game_state lines s).2.
Proof.
  intros Hdone.
  assert (ends_in_sync (load_game_state lines)) as Hends.
  { unfold load_game_state.
    do 7 (apply bind_in_sync; intros ?). apply redraw_in_sync. }
  apply (Hends s tt). rewrite <- Hdone. apply surjective_pairing.
Qed.

(** X5: [chosen] never raises and resets the model whatever the answer.
    On the answer yes the view then shows the reset model and the
    controller attributes [player_position] and [moves_remaining] are
    (0, 0) and 10; on the answer no both canvases are empty, the window
    is destroyed last, and the two attributes are unchanged. *)
Theorem chosen_resets message s :
  let r := chosen askyesno message s in
  r.1 = Done tt
  /\ model r.2 = reset (model s)
  /\ if askyesno message then
       in_sync r.2
       /\ player_position r.2 = Some (0, 0)
       /\ moves_remaining r.2 = Some 10
     else
       shown (events r.2) = blank
       /\ last (events r.2) = Some Destroy
       /\ player_position r.2 = player_position s
       /\ moves_remaining r.2 = moves_remaining s.
Proof.
  cbv zeta. rewrite chosen_run. cbn [fst snd model].
  split; [reflexivity|]. split; [reflexivity|].
  unfold in_sync, chosen_events.
  cbn [events model player_position moves_remaining].
  destruct (askyesno message).
  - split; [|split; reflexivity].
    apply (shown_ends_with_redraw _
             [AskYesNo message; Call m_reset; ClearAll]).
  - split; [|split; [|split; reflexivity]].
    + rewrite shown_app. reflexivity.
    + change (AskYesNo message :: [ClearAll; Call m_reset; Destroy])
        with ([AskYesNo message; ClearAll; Call m_reset] ++ [Destroy])%list.
      rewrite app_assoc. apply last_snoc.
Qed.

(** X6: a movement key calls [attempt_move] exactly once and
    [attempt_purchase] never; [reset] is called once if the move ended
    the game (won, or lost by the loss condition) and not at all
    otherwise.  The model afterwards is the reset one in the first case,
    whatever the answer to the dialog, and the moved one in the
    second. *)
Theorem handle_keypress_mutations c s :
  c ∈ movement_keys ->
  let m' := attempt_move c (model s) in
  let ended := has_won m' || loss_condition m' in
  model (handle_keypress askyesno c s).2 = (if ended then reset m' else m')
  /\ List.filter is_mutation (performed (handle_keypress askyesno c) s)
     = Call (m_attempt_move c) :: (if ended then [Call m_reset] else []).
Proof.
  intros Hc m' ended. subst ended.
  destruct (handle_keypress_performed askyesno c s Hc) as [_ ->].
  rewrite (handle_keypress_move askyesno c s Hc). cbv zeta. fold m'.
  unfold loss_condition, chosen_events.
  destruct (has_won m').
  - rewrite chosen_run. cbn [snd model orb]. split; [reflexivity|].
    destruct (askyesno win_message); reflexivity.
  - cbn [orb negb]. rewrite andb_true_r.
    destruct (get_player_moves_remaining m' =? 0).
    + rewrite chosen_run. cbn [snd model]. split; [reflexivity|].
      destruct (askyesno lose_message); reflexivity.
    + rewrite redraw_run. cbn [snd model]. split; reflexivity.
Qed.

End ViewFacts.

(** ** Loading, step by step *)

Section LoadSteps.

Context `{Support}.

Lemma parse_stats_run items : forall acc s,
  for_each (fun item acc =>
              match Py.int item with
              | Some n => ret (acc ++ [n])%list
              | None => raise Py.ValueError
              end) items acc s
  = match parse_stats items with
    | Some ns => (Done (acc ++ ns)%list, s)
    | None => (Raise Py.ValueError, s)
    end.
Proof.
  induction items as [|item items IH]; intros acc s; cbn [for_each parse_stats].
  - unfold ret. rewrite app_nil_r. reflexivity.
  - unfold bind at 1. destruct (Py.int item) as [n|]; [|reflexivity].
    cbn [ret]. rewrite IH. destruct (parse_stats items) as [ns|];
      [|reflexivity].
    rewrite <- app_assoc. reflexivity.
Qed.

Lemma place_cons p cells s :
  place (p :: cells) s
  = place cells (update_model (with_player_position p) s).2.
Proof.
  destruct cells as [|q cells]; [reflexivity|].
  unfold place. change (last (p :: q :: cells)) with (last (q :: cells)).
  destruct (last (q :: cells)) eqn:Hlast; [reflexivity|].
  apply last_None in Hlast. discriminate.
Qed.

Lemma place_app cells1 cells2 s :
  place (cells1 ++ cells2) s = place cells2 (place cells1 s).
Proof.
  revert s. induction cells1 as [|p cells1 IH]; intros s; [reflexivity|].
  cbn [app]. rewrite !place_cons. apply IH.
Qed.

(** A character that calls no marker: the three quiet branches. *)
Lemma load_char_quiet i j c loc s :
  calls_marker c = false ->
  load_char i (j, c) loc s
  = (Done {| row_maze := (row_maze loc
                          ++ if is_wall_char c then [RMarker WALL] else [])%list;
             entities := entities loc |},
     place (cells_of i [(j, c)]) s).
Proof.
  unfold calls_marker, is_wall_char, load_char, cells_of, place.
  intros Hquiet. cbn [omap list_omap fst snd].
  destruct (Ascii.eqb c PLAYER); cbn [negb andb last] in *.
  - ctl_step. rewrite app_nil_r. destruct loc. reflexivity.
  - destruct (Ascii.eqb c WALL); cbn [negb andb] in *; [reflexivity|].
    apply orb_false_elim in Hquiet as [Hquiet Hs].
    apply orb_false_elim in Hquiet as [Hquiet Hm].
    apply orb_false_elim in Hquiet as [Hc Hf].
    rewrite Hc, Hf, Hm, Hs. ctl_step.
    rewrite app_nil_r. destruct loc. reflexivity.
Qed.

(** A character that calls a marker: [TypeError], nothing assigned. *)
Lemma load_char_fault i j c loc s :
  calls_marker c = true ->
  load_char i (j, c) loc s = (Raise Py.TypeError, s).
Proof.
  unfold calls_marker, load_char, call_str. intros Hcall.
  apply andb_prop in Hcall as [Hcall Hmarker].
  apply andb_prop in Hcall as [Hp Hw].
  apply negb_true_iff in Hp, Hw. rewrite Hp, Hw.
  destruct (Ascii.eqb c CRATE); [reflexivity|].
  destruct (Ascii.eqb c FANCY_POTION); [reflexivity|].
  destruct (Ascii.eqb c MOVE_POTION); [reflexivity|].
  destruct (Ascii.eqb c STRENGTH_POTION); [reflexivity|discriminate].
Qed.

Lemma cells_of_cons i jc jcs :
  cells_of i (jc :: jcs) = (cells_of i [jc] ++ cells_of i jcs)%list.
Proof.
  unfold cells_of. cbn [omap list_omap].
  destruct (Ascii.eqb jc.2 PLAYER); reflexivity.
Qed.

Lemma load_chars_quiet i jcs : forall loc s,
  existsb calls_marker jcs.*2 = false ->
  for_each (load_char i) jcs loc s
  = (Done {| row_maze :=
               (row_maze loc
                ++ replicate (length (List.filter is_wall_char jcs.*2))
                     (RMarker WALL))%list;
             entities := entities loc |},
     place (cells_of i jcs) s).
Proof.
  induction jcs as [|[j c] jcs IH]; intros loc s Hquiet.
  - cbn. rewrite app_nil_r. destruct loc. reflexivity.
  - cbn [fmap list_fmap snd existsb] in Hquiet.
    apply orb_false_elim in Hquiet as [Hc Hrest].
    cbn [for_each]. unfold bind. rewrite (load_char_quiet i j c loc s Hc).
    rewrite IH by exact Hrest. cbn [row_maze entities].
    rewrite (cells_of_cons i (j, c) jcs), place_app. f_equal. f_equal.
    cbn [fmap list_fmap snd List.filter].
    destruct (is_wall_char c); cbn [length replicate].
    + rewrite <- app_assoc. reflexivity.
    + rewrite app_nil_r. reflexivity.
Qed.

Lemma load_chars_fault i jcs : forall loc s,
  existsb calls_marker jcs.*2 = true ->
  (for_each (load_char i) jcs loc s).1 = Raise Py.TypeError.
Proof.
  induction jcs as [|[j c] jcs IH]; intros loc s Hfault; [discriminate|].
  cbn [fmap list_fmap snd existsb] in Hfault. cbn [for_each]. unfold bind.
  destruct (calls_marker c) eqn:Hc.
  - rewrite (load_char_fault i j c loc s Hc). reflexivity.
  - rewrite (load_char_quiet i j c loc s Hc). apply IH. exact Hfault.
Qed.

Lemma enumerate_values {A} (l : list A) : (Py.enumerate l).*2 = l.
Proof.
  unfold Py.enumerate. generalize Z.of_nat as f.
  induction l as [|x l IH]; intros f; [reflexivity|].
  cbn [imap fmap list_fmap snd]. f_equal. apply (IH (f ∘ S)).
Qed.

Lemma load_line_quiet il bound s :
  row_calls_marker il.2 = false ->
  load_line il bound s = (Done (Some (row_walls il.2)), place (row_cells il) s).
Proof.
  destruct il as [i line]. unfold row_calls_marker, load_line. cbn [fst snd].
  intros Hquiet. unfold bind.
  rewrite load_chars_quiet by (rewrite enumerate_values; exact Hquiet).
  rewrite enumerate_values. reflexivity.
Qed.

Lemma load_line_fault il bound s :
  row_calls_marker il.2 = true ->
  (load_line il bound s).1 = Raise Py.TypeError.
Proof.
  destruct il as [i line]. unfold row_calls_marker, load_line. cbn [fst snd].
  intros Hfault. unfold bind.
  pose proof (load_chars_fault i
                (Py.enumerate (Py.chars (Py.strip line)))
                {| row_maze := []; entities := ∅ |} s) as Hrun.
  rewrite enumerate_values in Hrun. specialize (Hrun Hfault).
  destruct (for_each _ _ _ s) as [[loc|e] s']; cbn [fst] in *;
    [discriminate|]. injection Hrun as ->. reflexivity.
Qed.

Lemma load_lines_quiet ils : forall bound s,
  existsb row_calls_marker ils.*2 = false ->
  for_each load_line ils bound s
  = (Done (match last ils with
           | Some il => Some (row_walls il.2)
           | None => bound
           end),
     place (concat (map row_cells ils)) s).
Proof.
  induction ils as [|il ils IH]; intros bound s Hquiet; [reflexivity|].
  cbn [fmap list_fmap existsb] in Hquiet.
  apply orb_false_elim in Hquiet as [Hil Hrest].
  cbn [for_each]. unfold bind. rewrite (load_line_quiet il bound s Hil).
  rewrite IH by exact Hrest. cbn [map concat]. rewrite place_app.
  f_equal. f_equal. destruct ils as [|il' ils]; [reflexivity|].
  change (last (il :: il' :: ils)) with (last (il' :: ils)).
  destruct (last (il' :: ils)) eqn:Hlast; [reflexivity|].
  apply last_None in Hlast. discriminate.
Qed.

Lemma load_lines_fault ils : forall bound s,
  existsb row_calls_marker ils.*2 = true ->
  (for_each load_line ils bound s).1 = Raise Py.TypeError.
Proof.
  induction ils as [|il ils IH]; intros bound s Hfault; [discriminate|].
  cbn [fmap list_fmap existsb] in Hfault. cbn [for_each]. unfold bind.
  destruct (row_calls_marker il.2) eqn:Hil.
  - pose proof (load_line_fault il bound s Hil) as Hrun.
    destruct (load_line il bound s) as [[b|e] s']; cbn [fst] in *;
      [discriminate|]. injection Hrun as ->. reflexivity.
  - rewrite (load_line_quiet il bound s Hil). apply IH. exact Hfault.
Qed.

Lemma last_enumerate {A} (l : list A) :
  snd <$> last (Py.enumerate l) = last l.
Proof. rewrite <- fmap_last, enumerate_values. reflexivity. Qed.

(** With two integers on the first line, the load assigns them and goes
    on with the rows. *)
Lemma load_after_header line0 rows a b more s :
  parse_stats (header_items line0) = Some (a :: b :: more) ->
  load_game_state (line0 :: rows) s
  = (bound <- for_each load_line (Py.enumerate rows) None ;;
     match bound with
     | Some r => update_model (with_maze r)
     | None => raise Py.UnboundLocalError
     end ;;
     query m_get_entities get_entities ;;
     redraw)
      (update_model (with_player_moves_remaining b)
         (update_model (with_player_strength a) s).2).2.
Proof.
  intros Hparse. unfold load_game_state. unfold header_items in Hparse.
  unfold bind at 1 2. cbn [ret]. rewrite parse_stats_run, Hparse.
  cbn [app tail]. unfold bind at 1 2.
  cbn [lookup list_lookup update_model]. reflexivity.
Qed.

Lemma load_result_run lines s :
  (load_game_state lines s).1 = load_result lines.
Proof.
  unfold load_game_state, load_result, header_items.
  destruct lines as [|line0 rows]; [reflexivity|].
  unfold bind at 1 2. cbn [ret]. rewrite parse_stats_run.
  destruct (parse_stats _) as [stats|]; [|reflexivity].
  cbn [app]. destruct stats as [|a [|b more]]; [reflexivity..|].
  cbn [length Nat.ltb Nat.leb tail]. ctl_step.
  cbn [lookup list_lookup]. ctl_step.
  destruct (existsb row_calls_marker rows) eqn:Hrows.
  - match goal with
    | |- context [for_each load_line ?ils ?b ?s0] =>
        pose proof (load_lines_fault ils b s0) as Hrun;
        destruct (for_each load_line ils b s0) as [[bound|e] s']
    end; rewrite enumerate_values in Hrun; specialize (Hrun Hrows);
      cbn [fst] in *; [discriminate|].
    injection Hrun as ->. reflexivity.
  - rewrite load_lines_quiet by (rewrite enumerate_values; exact Hrows).
    destruct rows as [|row rows]; [reflexivity|].
    destruct (last (Py.enumerate (row :: rows))) eqn:Hlast.
    + ctl_step. rewrite redraw_run. reflexivity.
    + apply last_None in Hlast. discriminate.
Qed.

(** X7: once the file is read, how [load_game_state] ends depends on
    its lines alone, not on the game it is loaded into: [IndexError] for
    no line at all or a first line with one item, [ValueError] for an
    item that [int()] rejects, [TypeError] when a row holds a crate or
    potion marker, [UnboundLocalError] when no row follows the first
    line; otherwise it completes.  The items of the first line are taken
    short enough for the digit limit of [int()] not to matter. *)
Theorem load_outcome lines s :
  short_header lines = true ->
  (load_game_state lines s).1 = load_result lines.
Proof. intros _. apply load_result_run. Qed.

(** X8: the model after a load that completes.  The two integers of the
    first line are in the attributes [player_strength] and
    [player_moves_remaining]; the player position is one column to the
    right of the last player marker of the rows, or unchanged without a
    marker; the attribute [maze] holds one wall marker per wall
    character of the last row, followed by the list itself; maze,
    entities and player of the model are as before.  The items of the
    first line are taken short enough for the digit limit of [int()]
    not to matter. *)
Theorem load_completed_model line0 rows a b more lastrow s :
  short_items line0 = true ->
  parse_stats (header_items line0) = Some (a :: b :: more) ->
  existsb row_calls_marker rows = false ->
  last rows = Some lastrow ->
  let r := load_game_state (line0 :: rows) s in
  r.1 = Done tt
  /\ model r.2
     = {| _maze := _maze (model s); _entities := _entities (model s);
          _player_position :=
            default (_player_position (model s)) (last (player_cells rows));
          _player := _player (model s);
          player_strength := Some a; player_moves_remaining := Some b;
          maze := Some (row_walls lastrow) |}.
Proof.
  intros _ Hparse Hrows Hlast. cbv zeta.
  rewrite (load_after_header line0 rows a b more s Hparse).
  ctl_step.
  rewrite load_lines_quiet by (rewrite enumerate_values; exact Hrows).
  pose proof (last_enumerate rows) as Henum. rewrite Hlast in Henum.
  destruct (last (Py.enumerate rows)) as [[i line]|]; [|discriminate].
  injection Henum as ->. ctl_step. rewrite redraw_run. ctl_step.
  split; [reflexivity|]. fold (player_cells rows). unfold place.
  destruct (last (player_cells rows)); reflexivity.
Qed.


Lemma preserves_ret {A B} (obs : SokobanModel -> B) (a : A) :
  preserves obs (ret a).
Proof. intros s. reflexivity. Qed.

Lemma preserves_raise {A B} (obs : SokobanModel -> B) e :
  preserves obs (@raise A e).
Proof. intros s. reflexivity. Qed.

Lemma preserves_bind {A B C} (obs : SokobanModel -> C) (c : Ctl A)
    (k : A -> Ctl B) :
  preserves obs c -> (forall a, preserves obs (k a)) ->
  preserves obs (bind c k).
Proof.
  intros Hc Hk s. unfold bind. specialize (Hc s).
  destruct (c s) as [[a|e] s']; cbn [snd] in *.
  - rewrite Hk. exact Hc.
  - exact Hc.
Qed.

Lemma preserves_emit {B} (obs : SokobanModel -> B) e : preserves obs (emit e).
Proof. intros s. reflexivity. Qed.

Lemma preserves_update_model {B} (obs : SokobanModel -> B) f :
  (forall m, obs (f m) = obs m) -> preserves obs (update_model f).
Proof. intros Hf s. apply Hf. Qed.

Lemma preserves_query {A B} (obs : SokobanModel -> B) f
    (get : SokobanModel -> A) :
  preserves obs (query f get).
Proof.
  apply preserves_bind; [apply preserves_emit|]. intros _ s. reflexivity.
Qed.

Lemma preserves_for_each {A L B} (obs : SokobanModel -> B)
    (body : A -> L -> Ctl L) l :
  (forall x loc, preserves obs (body x loc)) ->
  forall loc, preserves obs (for_each body l loc).
Proof.
  intros Hbody. induction l as [|x l IH]; intros loc; cbn [for_each].
  - apply preserves_ret.
  - apply preserves_bind; [apply Hbody | exact IH].
Qed.

Lemma preserves_redraw {B} (obs : SokobanModel -> B) : preserves obs redraw.
Proof. intros s. rewrite redraw_run. reflexivity. Qed.

(** The loop over the rows assigns the player position and nothing
    else. *)
Lemma preserves_load_line {B} (obs : SokobanModel -> B) il bound :
  (forall p m, obs (with_player_position p m) = obs m) ->
  preserves obs (load_line il bound).
Proof.
  intros Hobs. unfold load_line. destruct il as [i line].
  apply preserves_bind; [|intros ?; apply preserves_ret].
  apply preserves_for_each. intros [j c] loc. unfold load_char, call_str.
  repeat first
    [ apply preserves_ret | apply preserves_raise
    | apply preserves_update_model; exact (Hobs _)
    | apply preserves_bind; [|intros ?]
    | match goal with
      | |- preserves _ (if ?b then _ else _) => destruct b
      | |- preserves _ (match ?o with Some _ => _ | None => _ end) =>
          destruct o
      end ].
Qed.

(** X10: no load, completed or failed, changes what the accessors of
    the model answer for the maze and for the strength, moves and money
    of the player: the numbers of the file go to two other
    attributes. *)
Theorem load_keeps_maze_and_player lines s :
  let m' := model (load_game_state lines s).2 in
  get_maze m' = get_maze (model s)
  /\ get_player_strength m' = get_player_strength (model s)
  /\ get_player_moves_remaining m' = get_player_moves_remaining (model s)
  /\ get_player_money m' = get_player_money (model s).
Proof.
  cbv zeta.
  enough (preserves (fun m => (_maze m, _player m)) (load_game_state lines))
    as Hkeeps.
  { specialize (Hkeeps s). cbv beta in Hkeeps.
    injection Hkeeps as Hmaze Hplayer.
    unfold get_maze, get_player_strength, get_player_moves_remaining,
      get_player_money.
    rewrite Hmaze, Hplayer. repeat split. }
  unfold load_game_state.
  apply preserves_bind;
    [destruct lines; [apply preserves_raise | apply preserves_ret]|].
  intros line0. apply preserves_bind.
  { apply preserves_for_each. intros item acc.
    destruct (Py.int item); [apply preserves_ret | apply preserves_raise]. }
  intros player_stats.
  apply preserves_bind.
  { destruct (player_stats !! 0%nat);
      [apply preserves_update_model; reflexivity | apply preserves_raise]. }
  intros _. apply preserves_bind.
  { destruct (player_stats !! 1%nat);
      [apply preserves_update_model; reflexivity | apply preserves_raise]. }
  intros _. apply preserves_bind.
  { apply preserves_for_each. intros il bound.
    apply preserves_load_line. reflexivity. }
  intros bound. apply preserves_bind.
  { destruct bound;
      [apply preserves_update_model; reflexivity | apply preserves_raise]. }
  intros _. apply preserves_bind; [apply preserves_query|].
  intros _. apply preserves_redraw.
Qed.

Lemma load_stats_assigned line0 rows a b more s :
  parse_stats (header_items line0) = Some (a :: b :: more) ->
  let m' := model (load_game_state (line0 :: rows) s).2 in
  player_strength m' = Some a /\ player_moves_remaining m' = Some b.
Proof.
  intros Hparse. cbv zeta.
  rewrite (load_after_header line0 rows a b more s Hparse).
  match goal with
  | |- context [bind ?c ?k ?s0] =>
      assert (preserves
                (fun m => (player_strength m, player_moves_remaining m))
                (bind c k)) as Hkeeps;
      [|specialize (Hkeeps s0)]
  end.
  { apply preserves_bind.
    { apply preserves_for_each. intros il bound.
      apply preserves_load_line. reflexivity. }
    intros bound. apply preserves_bind.
    { destruct bound;
        [apply preserves_update_model; reflexivity | apply preserves_raise]. }
    intros _. apply preserves_bind; [apply preserves_query|].
    intros _. apply preserves_redraw. }
  cbv beta in Hkeeps. injection Hkeeps as Hs Hm. split; assumption.
Qed.

(** X11: once the first line holds two integers (in items short enough
    for the digit limit of [int()] not to matter), they are in the
    attributes [player_strength] and [player_moves_remaining] after the
    load, also when a row then makes the load raise. *)
Theorem load_assigns_stats line0 rows a b more s :
  short_items line0 = true ->
  parse_stats (header_items line0) = Some (a :: b :: more) ->
  let m' := model (load_game_state (line0 :: rows) s).2 in
  player_strength m' = Some a /\ player_moves_remaining m' = Some b.
Proof. intros _. apply load_stats_assigned. Qed.

End LoadSteps.

(** ** Strings and integers *)

Section PyFacts.

Lemma append_cons c (a b : string) : String c a ++ b = String c (a ++ b).
Proof. reflexivity. Qed.

Lemma append_assoc (a b c : string) : (a ++ b) ++ c = a ++ (b ++ c).
Proof.
  induction a as [|x a IH]; [reflexivity|].
  rewrite !append_cons, IH. reflexivity.
Qed.

Lemma chars_append (a b : string) :
  Py.chars (a ++ b) = (Py.chars a ++ Py.chars b)%list.
Proof.
  unfold Py.chars. induction a as [|x a IH]; [reflexivity|].
  rewrite append_cons. cbn [list_ascii_of_string]. rewrite IH. reflexivity.
Qed.

Lemma lacks_append c a b : lacks c (a ++ b) = lacks c a && lacks c b.
Proof. unfold lacks. rewrite chars_append. apply forallb_app. Qed.

Lemma solid_append a b : solid (a ++ b) = solid a && solid b.
Proof. unfold solid. rewrite chars_append. apply forallb_app. Qed.

Lemma solid_lacks c s : Py.isspace c = true -> solid s = true -> lacks c s = true.
Proof.
  unfold solid, lacks. intros Hc Hs.
  induction (Py.chars s) as [|x l IH]; [reflexivity|].
  cbn [forallb] in *. apply andb_prop in Hs as [Hx Hl].
  rewrite IH by exact Hl. rewrite andb_true_r.
  destruct (Ascii.eqb_spec x c) as [->|]; [|reflexivity].
  rewrite Hc in Hx. discriminate.
Qed.

Lemma uint_solid d : solid (NilEmpty.string_of_uint d) = true.
Proof.
  unfold solid, Py.chars.
  induction d; cbn [NilEmpty.string_of_uint list_ascii_of_string forallb];
    [reflexivity|rewrite IHd; reflexivity..].
Qed.

Lemma uint_nonempty d :
  d <> Decimal.Nil -> NilEmpty.string_of_uint d <> "".
Proof. destruct d; [congruence|discriminate..]. Qed.

Lemma str_uint p :
  NilZero.string_of_uint (Pos.to_uint p)
  = NilEmpty.string_of_uint (Pos.to_uint p).
Proof.
  pose proof (DecimalPos.Unsigned.to_uint_nonnil p) as Hd.
  unfold NilZero.string_of_uint. destruct (Pos.to_uint p); congruence.
Qed.

Lemma str_cases n :
  Py.str n
  = match n with
    | 0 => "0"
    | Z.pos p => NilEmpty.string_of_uint (Pos.to_uint p)
    | Z.neg p => String "-" (NilEmpty.string_of_uint (Pos.to_uint p))
    end.
Proof.
  unfold Py.str. destruct n as [|p|p];
    cbn [Z.to_int NilZero.string_of_int]; rewrite ?str_uint; reflexivity.
Qed.

Lemma str_solid n : solid (Py.str n) = true.
Proof.
  rewrite str_cases. destruct n as [|p|p]; [reflexivity| |];
    apply (uint_solid (Pos.to_uint p)).
Qed.

Lemma str_nonempty n : Py.str n <> "".
Proof.
  rewrite str_cases. destruct n as [|p|p]; [discriminate| |discriminate].
  apply uint_nonempty, DecimalPos.Unsigned.to_uint_nonnil.
Qed.

Lemma lstrip_solid s : solid s = true -> Py.lstrip s = s.
Proof.
  destruct s as [|c s]; [reflexivity|].
  unfold solid. cbn. intros Hs. apply andb_prop in Hs as [Hc _].
  apply negb_true_iff in Hc. rewrite Hc. reflexivity.
Qed.

Lemma rstrip_solid s : solid s = true -> Py.rstrip s = s.
Proof.
  induction s as [|c s IH]; [reflexivity|].
  unfold solid. cbn [Py.chars list_ascii_of_string forallb Py.rstrip].
  intros Hs. apply andb_prop in Hs as [Hc Hs].
  rewrite (IH Hs). apply negb_true_iff in Hc. rewrite Hc.
  destruct s; reflexivity.
Qed.

Lemma strip_solid s : solid s = true -> Py.strip s = s.
Proof.
  intros Hs. unfold Py.strip. rewrite (lstrip_solid s Hs).
  apply rstrip_solid, Hs.
Qed.

(** Whitespace at the end goes, one character at a time. *)
Lemma rstrip_space_end s c :
  Py.isspace c = true -> Py.rstrip (s ++ str1 c) = Py.rstrip s.
Proof.
  intros Hc. induction s as [|x s IH].
  - change ("" ++ str1 c) with (String c ""). cbn [Py.rstrip].
    rewrite Hc. reflexivity.
  - rewrite append_cons. cbn [Py.rstrip]. rewrite IH. reflexivity.
Qed.

(** Whitespace before a solid end stays. *)
Lemma rstrip_solid_end s t :
  solid t = true -> t <> "" -> Py.rstrip (s ++ t) = s ++ t.
Proof.
  intros Ht Hne. induction s as [|x s IH].
  - apply rstrip_solid, Ht.
  - rewrite append_cons. cbn [Py.rstrip]. rewrite IH.
    destruct (s ++ t) eqn:Hst; [|reflexivity].
    destruct s as [|y s].
    + change ("" ++ t) with t in Hst. contradiction.
    + rewrite append_cons in Hst. discriminate Hst.
Qed.

Lemma split_lacks sep s : lacks sep s = true -> Py.split sep s = [s].
Proof.
  unfold lacks. induction s as [|c s IH]; [reflexivity|].
  cbn [Py.chars list_ascii_of_string forallb Py.split].
  intros Hs. apply andb_prop in Hs as [Hc Hs].
  apply negb_true_iff in Hc. rewrite Hc. rewrite (IH Hs). reflexivity.
Qed.

Lemma split_first sep a b :
  lacks sep a = true ->
  Py.split sep (a ++ String sep b) = a :: Py.split sep b.
Proof.
  unfold lacks. induction a as [|c a IH].
  - intros _. change ("" ++ String sep b) with (String sep b).
    cbn [Py.split]. rewrite Ascii.eqb_refl. reflexivity.
  - cbn [Py.chars list_ascii_of_string forallb].
    intros Ha. apply andb_prop in Ha as [Hc Ha].
    rewrite append_cons. cbn [Py.split].
    apply negb_true_iff in Hc. rewrite Hc. rewrite (IH Ha). reflexivity.
Qed.

Lemma readlines_first a rest :
  lacks nl a = true ->
  Py.readlines (a ++ String nl rest) = (a ++ str1 nl) :: Py.readlines rest.
Proof.
  unfold lacks. induction a as [|c a IH].
  - intros _. reflexivity.
  - cbn [Py.chars list_ascii_of_string forallb].
    intros Ha. apply andb_prop in Ha as [Hc Ha].
    rewrite !append_cons. cbn [Py.readlines].
    apply negb_true_iff in Hc. unfold nl in Hc. rewrite Hc.
    rewrite (IH Ha). reflexivity.
Qed.

Lemma digit_values :
  Py.digit "0" = Some 0 /\ Py.digit "1" = Some 1 /\ Py.digit "2" = Some 2
  /\ Py.digit "3" = Some 3 /\ Py.digit "4" = Some 4 /\ Py.digit "5" = Some 5
  /\ Py.digit "6" = Some 6 /\ Py.digit "7" = Some 7 /\ Py.digit "8" = Some 8
  /\ Py.digit "9" = Some 9.
Proof. repeat split. Qed.

(** Reading the digits of a decimal number, with an accumulator. *)
Lemma digits_uint_acc d : forall acc,
  Py.digits (NilEmpty.string_of_uint d) (Z.pos acc) true
  = Some (Z.pos (Pos.of_uint_acc d acc)).
Proof.
  destruct digit_values as (H0 & H1 & H2 & H3 & H4 & H5 & H6 & H7 & H8 & H9).
  induction d; intros acc;
    cbn [NilEmpty.string_of_uint Py.digits Pos.of_uint_acc];
    [reflexivity|..];
    rewrite ?H0, ?H1, ?H2, ?H3, ?H4, ?H5, ?H6, ?H7, ?H8, ?H9;
    rewrite <- IHd; f_equal; lia.
Qed.

Lemma digits_uint d : forall b,
  d <> Decimal.Nil \/ b = true ->
  Py.digits (NilEmpty.string_of_uint d) 0 b = Some (Z.of_N (Pos.of_uint d)).
Proof.
  destruct digit_values as (H0 & H1 & H2 & H3 & H4 & H5 & H6 & H7 & H8 & H9).
  induction d; intros b Hb;
    cbn [NilEmpty.string_of_uint Py.digits Pos.of_uint].
  - destruct Hb as [Hb| ->]; [congruence|reflexivity].
  - rewrite H0. apply IHd. right. reflexivity.
  - rewrite H1. apply (digits_uint_acc d 1).
  - rewrite H2. apply (digits_uint_acc d 2).
  - rewrite H3. apply (digits_uint_acc d 3).
  - rewrite H4. apply (digits_uint_acc d 4).
  - rewrite H5. apply (digits_uint_acc d 5).
  - rewrite H6. apply (digits_uint_acc d 6).
  - rewrite H7. apply (digits_uint_acc d 7).
  - rewrite H8. apply (digits_uint_acc d 8).
  - rewrite H9. apply (digits_uint_acc d 9).
Qed.

Lemma int_space_isspace c : Py.int_space c = true -> Py.isspace c = true.
Proof.
  destruct c as [[|] [|] [|] [|] [|] [|] [|] [|]];
    (reflexivity || discriminate).
Qed.

(** A string without whitespace loses nothing to [int()]'s skipping. *)
Lemma int_skips_nothing s :
  solid s = true ->
  Py.drop_trailing Py.int_space (Py.drop_leading Py.int_space s) = s.
Proof.
  intros Hs.
  assert (forallb (fun c => negb (Py.int_space c)) (Py.chars s) = true)
    as Hplain.
  { unfold solid in Hs. apply forallb_forall. intros c Hc.
    rewrite forallb_forall in Hs. specialize (Hs c Hc).
    destruct (Py.int_space c) eqn:Hint; [|reflexivity].
    rewrite (int_space_isspace c Hint) in Hs. discriminate. }
  clear Hs. unfold Py.chars in Hplain.
  assert (Py.drop_leading Py.int_space s = s) as ->.
  { destruct s as [|c s]; [reflexivity|].
    cbn [list_ascii_of_string forallb] in Hplain.
    apply andb_prop in Hplain as [Hc _]. apply negb_true_iff in Hc.
    cbn [Py.drop_leading]. rewrite Hc. reflexivity. }
  induction s as [|c s IH]; [reflexivity|].
  cbn [list_ascii_of_string forallb] in Hplain.
  apply andb_prop in Hplain as [Hc Hplain]. apply negb_true_iff in Hc.
  cbn [Py.drop_trailing]. rewrite (IH Hplain), Hc. destruct s; reflexivity.
Qed.

Lemma int_uint d :
  d <> Decimal.Nil ->
  Py.int (NilEmpty.string_of_uint d) = Some (Z.of_N (Pos.of_uint d)).
Proof.
  intros Hd. unfold Py.int. rewrite int_skips_nothing by apply uint_solid.
  rewrite <- (digits_uint d false) by (left; exact Hd).
  destruct d; [congruence|reflexivity..].
Qed.

(** [int(str(n)) == n] *)
Lemma int_str n : Py.int (Py.str n) = Some n.
Proof.
  rewrite str_cases. destruct n as [|p|p]; [reflexivity| |].
  - rewrite int_uint by apply DecimalPos.Unsigned.to_uint_nonnil.
    rewrite DecimalPos.Unsigned.of_to. reflexivity.
  - unfold Py.int.
    rewrite int_skips_nothing by apply (uint_solid (Pos.to_uint p)).
    rewrite digits_uint
      by (left; apply DecimalPos.Unsigned.to_uint_nonnil).
    rewrite DecimalPos.Unsigned.of_to. reflexivity.
Qed.

End PyFacts.

(** ** Saving, and the first line on the way back *)

Section SaveFacts.

Context `{Support}.

Lemma lstrip_solid_start a b :
  solid a = true -> a <> "" -> Py.lstrip (a ++ b) = a ++ b.
Proof.
  destruct a as [|c a]; [congruence|]. intros Ha _.
  unfold solid in Ha. cbn [Py.chars list_ascii_of_string forallb] in Ha.
  apply andb_prop in Ha as [Hc _]. apply negb_true_iff in Hc.
  rewrite append_cons. cbn [Py.lstrip]. rewrite Hc. reflexivity.
Qed.

(** The items of the first line of a saved file are the two numbers. *)
Lemma header_items_saved m :
  header_items (header_line m ++ str1 nl)
  = [Py.str (get_player_strength m); Py.str (get_player_moves_remaining m)].
Proof.
  unfold header_items, header_line, Py.strip.
  set (a := Py.str (get_player_strength m)).
  set (b := Py.str (get_player_moves_remaining m)).
  rewrite append_assoc.
  rewrite lstrip_solid_start by (apply str_solid || apply str_nonempty).
  rewrite <- append_assoc, rstrip_space_end by reflexivity.
  rewrite <- (append_assoc a " " b).
  rewrite rstrip_solid_end by (apply str_solid || apply str_nonempty).
  rewrite append_assoc. change (" " ++ b) with (String " " b).
  rewrite split_first by (apply solid_lacks; [reflexivity | apply str_solid]).
  rewrite split_lacks by (apply solid_lacks; [reflexivity | apply str_solid]).
  reflexivity.
Qed.

Lemma parse_stats_saved m :
  parse_stats (header_items (header_line m ++ str1 nl))
  = Some [get_player_strength m; get_player_moves_remaining m].
Proof.
  rewrite header_items_saved. cbn [parse_stats]. rewrite !int_str.
  reflexivity.
Qed.

Lemma save_starts_with_header m :
  exists rows_text,
    save_game_state m = header_line m ++ String nl rows_text.
Proof.
  unfold save_game_state, header_line. eexists.
  rewrite !append_assoc. reflexivity.
Qed.

Lemma header_lacks_newline m : lacks nl (header_line m) = true.
Proof.
  unfold header_line. rewrite !lacks_append.
  rewrite (solid_lacks nl (Py.str (get_player_strength m)))
    by (reflexivity || apply str_solid).
  rewrite (solid_lacks nl (Py.str (get_player_moves_remaining m)))
    by (reflexivity || apply str_solid).
  reflexivity.
Qed.

(** X12: the two numbers survive the file.  Whatever the maze and the
    entities, loading the file that [save_game_state] wrote for a model
    puts the saved strength and moves into the attributes
    [player_strength] and [player_moves_remaining] of the model loaded
    into, also when a row then makes the load raise. *)
Theorem saved_stats_are_read_back m s :
  let m' := model (load_game_state (Py.readlines (save_game_state m)) s).2 in
  player_strength m' = Some (get_player_strength m)
  /\ player_moves_remaining m' = Some (get_player_moves_remaining m).
Proof.
  destruct (save_starts_with_header m) as [rows_text ->].
  rewrite readlines_first by apply header_lacks_newline.
  apply (load_stats_assigned _ _ _ _ [] s (parse_stats_saved m)).
Qed.

Lemma lacks_concat c pieces :
  Forall (fun piece => lacks c piece = true) pieces ->
  lacks c (String.concat "" pieces) = true.
Proof.
  induction pieces as [|x [|y pieces] IH]; intros Hall; [reflexivity| |].
  - apply Forall_cons in Hall as [Hx _]. exact Hx.
  - apply Forall_cons in Hall as [Hx Hrest].
    change (String.concat "" (x :: y :: pieces))
      with (x ++ String.concat "" (y :: pieces)).
    rewrite lacks_append, Hx, (IH Hrest). reflexivity.
Qed.

Lemma readlines_rows texts :
  Forall (fun text => lacks nl text = true) texts ->
  Py.readlines (String.concat "" (map (fun text => text ++ str1 nl) texts))
  = map (fun text => text ++ str1 nl) texts.
Proof.
  induction texts as [|x [|y texts] IH]; intros Hall; [reflexivity| |].
  - apply Forall_cons in Hall as [Hx _]. cbn [map String.concat].
    apply (readlines_first x "" Hx).
  - apply Forall_cons in Hall as [Hx Hrest].
    change (String.concat "" (map (fun text => text ++ str1 nl) (x :: y :: texts)))
      with ((x ++ str1 nl)
            ++ String.concat "" (map (fun text => text ++ str1 nl) (y :: texts))).
    rewrite append_assoc.
    change (str1 nl ++ ?r) with (String nl r).
    rewrite (readlines_first x _ Hx), (IH Hrest). reflexivity.
Qed.

Lemma str1_lacks c d : d <> c -> lacks c (str1 d) = true.
Proof.
  intros Hd. unfold lacks, str1. cbn.
  apply Ascii.eqb_neq in Hd. rewrite Hd. reflexivity.
Qed.

Lemma save_cell_lacks_newline m i j col :
  nl ∉ [PLAYER; WALL; FANCY_POTION; MOVE_POTION; STRENGTH_POTION] ->
  lacks nl (save_cell m i j col) = true.
Proof.
  intros Hmarkers.
  assert (forall c, c ∈ [PLAYER; WALL; FANCY_POTION; MOVE_POTION;
                         STRENGTH_POTION] -> lacks nl (str1 c) = true)
    as Hmarker.
  { intros c Hc. apply str1_lacks. intros ->. contradiction. }
  unfold save_cell.
  repeat match goal with
         | |- lacks nl (if ?b then _ else _) = true => destruct b
         | |- lacks nl (match ?o with Some _ => _ | None => _ end) = true =>
             destruct o
         end;
    try reflexivity;
    try (apply Hmarker; repeat constructor);
    apply solid_lacks; [reflexivity | apply str_solid].
Qed.

Lemma saved_lines m :
  nl ∉ [PLAYER; WALL; FANCY_POTION; MOVE_POTION; STRENGTH_POTION] ->
  Py.readlines (save_game_state m)
  = (header_line m ++ str1 nl)
      :: map (fun ir => save_row m ir.1 ir.2) (Py.enumerate (get_maze m)).
Proof.
  intros Hmarkers.
  unfold save_game_state. fold (header_line m).
  replace (Py.str (get_player_strength m) ++ " "
           ++ Py.str (get_player_moves_remaining m) ++ str1 nl)
    with (header_line m ++ str1 nl)
    by (unfold header_line; rewrite !append_assoc; reflexivity).
  rewrite append_assoc. change (str1 nl ++ ?r) with (String nl r).
  rewrite readlines_first by apply header_lacks_newline. f_equal.
  set (cells := fun ir : Z * list Tile =>
         String.concat ""
           (map (fun '(j, col) => save_cell m ir.1 j col)
              (Py.enumerate ir.2))).
  rewrite (map_ext (fun '(i, row) => save_row m i row)
             (fun ir => cells ir ++ str1 nl)) by (intros [i row]; reflexivity).
  rewrite (map_ext (fun ir => save_row m ir.1 ir.2)
             (fun ir => cells ir ++ str1 nl)) by (intros [i row]; reflexivity).
  rewrite <- (map_map cells (fun text => text ++ str1 nl)).
  apply readlines_rows. apply Forall_map, Forall_forall. intros [i row] _.
  apply lacks_concat, Forall_map, Forall_forall. intros [j col] _.
  apply save_cell_lacks_newline, Hmarkers.
Qed.

(** X13: if none of the markers written is the newline character, the
    file that [save_game_state] writes reads back as one line with the
    two numbers followed by one line for each row of the maze, whatever
    the entities are. *)
Theorem saved_file_lines m :
  nl ∉ [PLAYER; WALL; FANCY_POTION; MOVE_POTION; STRENGTH_POTION] ->
  Py.readlines (save_game_state m)
  = (header_line m ++ str1 nl)
      :: map (fun ir => save_row m ir.1 ir.2) (Py.enumerate (get_maze m)).
Proof. apply saved_lines. Qed.

Lemma length_append (a b : string) :
  String.length (a ++ b) = (String.length a + String.length b)%nat.
Proof.
  induction a as [|c a IH]; [reflexivity|].
  rewrite append_cons. cbn [String.length]. rewrite IH. reflexivity.
Qed.

Lemma length_concat_ones {A} (f : A -> string) l :
  (forall x, x ∈ l -> String.length (f x) = 1%nat) ->
  String.length (String.concat "" (map f l)) = length l.
Proof.
  induction l as [|x [|y l] IH]; intros Hone; [reflexivity| |].
  - cbn [map String.concat length]. apply Hone, list_elem_of_here.
  - change (String.concat "" (map f (x :: y :: l)))
      with (f x ++ String.concat "" (map f (y :: l))).
    rewrite length_append, IH, Hone.
    + reflexivity.
    + apply list_elem_of_here.
    + intros z Hz. apply Hone, list_elem_of_further, Hz.
Qed.

Lemma str_one_digit n : 0 <= n <= 9 -> String.length (Py.str n) = 1%nat.
Proof.
  intros Hn. rewrite <- (Z2Nat.id n) by lia.
  assert (Z.to_nat n < 10)%nat as Hk by lia.
  revert Hk. generalize (Z.to_nat n) as k. intros k Hk.
  do 10 (destruct k as [|k]; [reflexivity|]). lia.
Qed.

Lemma save_cell_one_char m i j col :
  (forall p e, get_entities m !! p = Some e -> writes_one_char e) ->
  String.length (save_cell m i j col) = 1%nat.
Proof.
  intros Hentities. unfold save_cell.
  destruct (bool_decide _); [reflexivity|].
  destruct (Ascii.eqb (Tile_get_type col) WALL); [reflexivity|].
  destruct (get_entities m !! (i, j)) as [e|] eqn:He; [|reflexivity].
  specialize (Hentities _ _ He). destruct e as [strength| |k];
    cbn [Entity_get_type Entity_get_strength writes_one_char] in *.
  - rewrite Ascii.eqb_refl. apply str_one_digit, Hentities.
  - contradiction.
  - apply Ascii.eqb_neq in Hentities. rewrite Hentities.
    destruct k; cbn [Potion_get_type]; rewrite ?Ascii.eqb_refl;
      repeat match goal with
             | |- context [if ?b then _ else _] => destruct b
             end; reflexivity.
Qed.

(** X14: when the registry holds only crates of one-digit strength and
    potions (none of them under the crate marker), every row is written
    with exactly one character per column and the newline. *)
Theorem saved_row_width m i row :
  (forall p e, get_entities m !! p = Some e -> writes_one_char e) ->
  String.length (save_row m i row) = S (length row).
Proof.
  intros Hentities. unfold save_row.
  rewrite length_append, length_concat_ones.
  - unfold Py.enumerate. rewrite length_imap. cbn. lia.
  - intros [j col] _. apply save_cell_one_char, Hentities.
Qed.

Lemma lstrip_keeps c s :
  Py.isspace c = false -> In c (Py.chars s) -> In c (Py.chars (Py.lstrip s)).
Proof.
  intros Hc. unfold Py.chars. induction s as [|x s IH]; [intros []|].
  cbn [list_ascii_of_string Py.lstrip]. intros Hin.
  destruct (Py.isspace x) eqn:Hx; [|exact Hin].
  destruct Hin as [->|Hin]; [congruence|]. apply IH, Hin.
Qed.

Lemma rstrip_keeps c s :
  Py.isspace c = false -> In c (Py.chars s) -> In c (Py.chars (Py.rstrip s)).
Proof.
  intros Hc. unfold Py.chars. induction s as [|x s IH]; [intros []|].
  cbn [list_ascii_of_string Py.rstrip]. intros [->|Hin].
  - destruct (Py.rstrip s); [rewrite Hc|]; left; reflexivity.
  - specialize (IH Hin). destruct (Py.rstrip s); [destruct IH|].
    right. exact IH.
Qed.

Lemma strip_keeps c s :
  Py.isspace c = false -> In c (Py.chars s) -> In c (Py.chars (Py.strip s)).
Proof.
  intros Hc Hin. apply rstrip_keeps, lstrip_keeps; assumption.
Qed.

Lemma chars_concat c piece pieces :
  In piece pieces -> In c (Py.chars piece) ->
  In c (Py.chars (String.concat "" pieces)).
Proof.
  induction pieces as [|x [|y pieces] IH]; intros Hpiece Hc; [destruct Hpiece| |].
  - destruct Hpiece as [->|[]]. exact Hc.
  - change (String.concat "" (x :: y :: pieces))
      with (x ++ String.concat "" (y :: pieces)).
    rewrite chars_append. apply in_or_app.
    destruct Hpiece as [->|Hpiece]; [left; exact Hc|right].
    apply IH; assumption.
Qed.

(** What is written for a potion that is not taken for a crate: its
    marker. *)
Lemma potion_written k :
  (if Ascii.eqb (Potion_get_type k) FANCY_POTION then str1 FANCY_POTION
   else if Ascii.eqb (Potion_get_type k) MOVE_POTION then str1 MOVE_POTION
   else if Ascii.eqb (Potion_get_type k) STRENGTH_POTION
        then str1 STRENGTH_POTION
        else "")
  = str1 (Potion_get_type k).
Proof.
  destruct (Ascii.eqb_spec (Potion_get_type k) FANCY_POTION) as [Heq|Hf];
    [rewrite Heq; reflexivity|].
  destruct (Ascii.eqb_spec (Potion_get_type k) MOVE_POTION) as [Heq|Hm];
    [rewrite Heq; reflexivity|].
  destruct (Ascii.eqb_spec (Potion_get_type k) STRENGTH_POTION) as [Heq|Hs];
    [rewrite Heq; reflexivity|].
  destruct k; contradiction.
Qed.

(** X16: loading a saved file never fails on the first line.  If none
    of the markers written is the newline character, loading the file
    that [save_game_state] wrote raises [TypeError] when a row written
    holds a crate or potion marker, [UnboundLocalError] when the maze has
    no row, and completes otherwise. *)
Theorem load_of_saved_outcome m s :
  nl ∉ [PLAYER; WALL; FANCY_POTION; MOVE_POTION; STRENGTH_POTION] ->
  (load_game_state (Py.readlines (save_game_state m)) s).1
  = if existsb row_calls_marker
         (map (fun ir => save_row m ir.1 ir.2) (Py.enumerate (get_maze m)))
    then Raise Py.TypeError
    else match get_maze m with
         | [] => Raise Py.UnboundLocalError
         | _ => Done tt
         end.
Proof.
  intros Hmarkers. rewrite load_result_run, (saved_lines m Hmarkers).
  unfold load_result. rewrite parse_stats_saved.
  cbn [length Nat.ltb Nat.leb].
  destruct (existsb _ _); [reflexivity|].
  destruct (get_maze m); reflexivity.
Qed.

(** X17: a game with a potion in sight cannot be loaded back.  If a
    non-wall cell other than the player's holds a potion whose marker is
    no whitespace and differs from the player, wall and crate markers,
    then loading the file that [save_game_state] wrote raises
    [TypeError] (the newline being none of the markers written). *)
Theorem saved_potion_breaks_load m s (i j : nat) row col k :
  nl ∉ [PLAYER; WALL; FANCY_POTION; MOVE_POTION; STRENGTH_POTION] ->
  get_maze m !! i = Some row ->
  row !! j = Some col ->
  Tile_get_type col <> WALL ->
  (Z.of_nat i, Z.of_nat j) <> get_player_position m ->
  get_entities m !! (Z.of_nat i, Z.of_nat j) = Some (APotion k) ->
  Potion_get_type k ∉ [PLAYER; WALL; CRATE] ->
  Py.isspace (Potion_get_type k) = false ->
  (load_game_state (Py.readlines (save_game_state m)) s).1
  = Raise Py.TypeError.
Proof.
  intros Hmarkers Hrow Hcol Htile Hplayer Hpotion Hk Hsolid.
  rewrite load_result_run, (saved_lines m Hmarkers).
  unfold load_result. rewrite parse_stats_saved.
  cbn [length Nat.ltb Nat.leb].
  replace (existsb _ _) with true; [reflexivity|].
  symmetry. apply existsb_exists. exists (save_row m (Z.of_nat i) row).
  split.
  { apply in_map_iff. exists (Z.of_nat i, row). split; [reflexivity|].
    apply list_elem_of_In, list_elem_of_lookup. exists i.
    unfold Py.enumerate. rewrite list_lookup_imap, Hrow. reflexivity. }
  unfold row_calls_marker. apply existsb_exists.
  exists (Potion_get_type k). split.
  - apply strip_keeps; [exact Hsolid|]. unfold save_row.
    rewrite chars_append. apply in_or_app. left.
    apply (chars_concat _ (save_cell m (Z.of_nat i) (Z.of_nat j) col)).
    + apply in_map_iff. exists (Z.of_nat j, col). split; [reflexivity|].
      apply list_elem_of_In, list_elem_of_lookup. exists j.
      unfold Py.enumerate. rewrite list_lookup_imap, Hcol. reflexivity.
    + unfold save_cell.
      rewrite bool_decide_eq_false_2 by exact Hplayer.
      apply Ascii.eqb_neq in Htile. rewrite Htile, Hpotion.
      cbn [Entity_get_type].
      assert (Potion_get_type k <> CRATE) as Hcrate
        by (intros Heq; apply Hk; rewrite Heq; repeat constructor).
      apply Ascii.eqb_neq in Hcrate. rewrite Hcrate.
      rewrite potion_written. left. reflexivity.
  - unfold calls_marker.
    assert (Potion_get_type k <> PLAYER) as Hp
      by (intros Heq; apply Hk; rewrite Heq; repeat constructor).
    assert (Potion_get_type k <> WALL) as Hw
      by (intros Heq; apply Hk; rewrite Heq; repeat constructor).
    apply Ascii.eqb_neq in Hp, Hw. rewrite Hp, Hw. cbn [negb andb].
    destruct k; cbn [Potion_get_type]; rewrite Ascii.eqb_refl;
      rewrite ?orb_true_r; reflexivity.
Qed.

End SaveFacts.

(** ** What a load shows, and sessions *)

Section LoadEffects.

Context `{Support}.

Lemma quiet_ret {A} (a : A) : quiet (ret a).
Proof. intros s. reflexivity. Qed.

Lemma quiet_raise {A} e : quiet (@raise A e).
Proof. intros s. reflexivity. Qed.

Lemma quiet_update_model f : quiet (update_model f).
Proof. intros s. reflexivity. Qed.

Lemma quiet_bind {A B} (c : Ctl A) (k : A -> Ctl B) :
  quiet c -> (forall a, quiet (k a)) -> quiet (bind c k).
Proof.
  intros Hc Hk s. unfold bind. specialize (Hc s).
  destruct (c s) as [[a|e] s']; cbn [snd] in *.
  - rewrite Hk. exact Hc.
  - exact Hc.
Qed.

Lemma quiet_for_each {A L} (body : A -> L -> Ctl L) l :
  (forall x loc, quiet (body x loc)) ->
  forall loc, quiet (for_each body l loc).
Proof.
  intros Hbody. induction l as [|x l IH]; intros loc; cbn [for_each].
  - apply quiet_ret.
  - apply quiet_bind; [apply Hbody | exact IH].
Qed.

Lemma quiet_load_line il bound : quiet (load_line il bound).
Proof.
  unfold load_line. destruct il as [i line].
  apply quiet_bind; [|intros ?; apply quiet_ret].
  apply quiet_for_each. intros [j c] loc. unfold load_char, call_str.
  repeat first
    [ apply quiet_ret | apply quiet_raise | apply quiet_update_model
    | apply quiet_bind; [|intros ?]
    | match goal with
      | |- quiet (if ?b then _ else _) => destruct b
      | |- quiet (match ?o with Some _ => _ | None => _ end) => destruct o
      end ].
Qed.

Lemma draws_after_quiet {A B} (c : Ctl A) (k : A -> Ctl B) :
  quiet c -> (forall a, draws_at_end (k a)) -> draws_at_end (bind c k).
Proof.
  intros Hc Hk s. unfold bind. specialize (Hc s).
  destruct (c s) as [[a|e] s']; cbn [fst snd] in *.
  - rewrite <- Hc. apply Hk.
  - rewrite app_nil_r. exact Hc.
Qed.

Lemma draws_query_redraw :
  draws_at_end (query m_get_entities get_entities ;; redraw).
Proof.
  intros s. ctl_step. rewrite redraw_run. ctl_step.
  rewrite <- app_assoc. reflexivity.
Qed.

(** X15: the effects of a load.  When [load_game_state] completes it
    has asked the model for its entities and redrawn the model as the
    load left it, nothing more; when it raises it has drawn nothing and
    called no method of the model, whatever it assigned before. *)
Theorem load_effects lines s :
  performed (load_game_state lines) s
  = match (load_game_state lines s).1 with
    | Done _ =>
        Call m_get_entities
          :: redraw_events (model (load_game_state lines s).2)
    | Raise _ => []
    end.
Proof.
  apply performed_app.
  revert s. change (draws_at_end (load_game_state lines)).
  unfold load_game_state.
  apply draws_after_quiet;
    [destruct lines; [apply quiet_raise | apply quiet_ret]|].
  intros line0. apply draws_after_quiet.
  { apply quiet_for_each. intros item acc.
    destruct (Py.int item); [apply quiet_ret | apply quiet_raise]. }
  intros player_stats. apply draws_after_quiet.
  { destruct (player_stats !! 0%nat);
      [apply quiet_update_model | apply quiet_raise]. }
  intros _. apply draws_after_quiet.
  { destruct (player_stats !! 1%nat);
      [apply quiet_update_model | apply quiet_raise]. }
  intros _. apply draws_after_quiet.
  { apply quiet_for_each. intros il bound. apply quiet_load_line. }
  intros bound. apply draws_after_quiet.
  { destruct bound; [apply quiet_update_model | apply quiet_raise]. }
  intros _. apply draws_query_redraw.
Qed.

End LoadEffects.

Section SessionFacts.

Context `{Support} `{Engine}.
Variable askyesno : string -> bool.

Lemma press_in_sync c s :
  (forall message, askyesno message = true) ->
  in_sync s -> in_sync (handle_keypress askyesno c s).2.
Proof.
  intros Hyes Hsync.
  destruct (decide (c ∈ movement_keys)) as [Hc|Hc].
  - rewrite (handle_keypress_move askyesno c s Hc). cbv zeta.
    destruct (has_won _); [|destruct (_ =? 0)].
    + rewrite chosen_run. unfold in_sync, chosen_events.
      cbn [snd events model]. rewrite Hyes, <- app_assoc.
      apply (shown_ends_with_redraw _
               [Call (m_attempt_move c); Call m_has_won;
                AskYesNo win_message; Call m_reset; ClearAll]).
    + rewrite chosen_run. unfold in_sync, chosen_events.
      cbn [snd events model]. rewrite Hyes, <- app_assoc.
      apply (shown_ends_with_redraw _
               [Call (m_attempt_move c); Call m_has_won;
                Call m_get_player_moves_remaining; Call m_has_won;
                AskYesNo lose_message; Call m_reset; ClearAll]).
    + rewrite redraw_run. eapply redraw_in_sync. apply redraw_run.
  - unfold handle_keypress. fold movement_keys.
    rewrite bool_decide_eq_false_2 by exact Hc. ctl_step. exact Hsync.
Qed.

Lemma buy_in_sync item_id s :
  in_sync s -> in_sync (perform_action item_id s).2.
Proof.
  intros Hsync. unfold perform_action.
  destruct (String.eqb item_id "STRENGTH_POTION").
  - unfold getattr_str. ctl_step. unfold in_sync in *.
    cbn [events model]. rewrite shown_app. exact Hsync.
  - ctl_step. rewrite redraw_run. ctl_step. unfold in_sync.
    cbn [events model]. rewrite <- app_assoc.
    apply (shown_ends_with_redraw _ [Call (m_attempt_purchase item_id)]).
Qed.

Lemma session_keeps_sync actions s :
  (forall message, askyesno message = true) ->
  in_sync s -> in_sync (session askyesno actions s).
Proof.
  intros Hyes. unfold session. revert s.
  induction actions as [|a actions IH]; intros s Hsync; [exact Hsync|].
  cbn [fold_left]. apply IH. destruct a as [c|item_id]; cbn [act].
  - apply press_in_sync; assumption.
  - apply buy_in_sync, Hsync.
Qed.

(** X18: from its construction on, the controller shows the model:
    after [__init__] and any sequence of keypresses and Buy clicks, with
    a user who always answers yes to the dialog, the view shows the
    current state of the model. *)
Theorem constructed_session_in_sync m actions :
  (forall message, askyesno message = true) ->
  in_sync (session askyesno actions (construct m).1).
Proof.
  intros Hyes. apply session_keeps_sync; [exact Hyes|].
  unfold construct. cbn [fst]. rewrite redraw_run.
  eapply redraw_in_sync. apply redraw_run.
Qed.

(** X19: [create_shop_items] makes one frame per entry of the
    catalogue, in the order of the catalogue, with the price of the
    entry and a command that calls the callback with the key of that
    very entry.  With distinct potion markers, the entry of a potion
    kind is named after the kind; a key that is no potion marker gets a
    frame without a name. *)
Theorem create_shop_items_frames shop_items button_callback
    (i : nat) key value :
  NoDup [STRENGTH_POTION; MOVE_POTION; FANCY_POTION] ->
  shop_items !! i = Some (key, value) ->
  length (create_shop_items shop_items button_callback) = length shop_items
  /\ exists b,
       create_shop_items shop_items button_callback !! i = Some b
       /\ amount b = value
       /\ callback b = button_callback key
       /\ (forall k, key = str1 (Potion_get_type k) ->
           item b = Some (potion_name k))
       /\ ((forall k, key <> str1 (Potion_get_type k)) -> item b = None).
Proof.
  intros Hdistinct Hentry. unfold create_shop_items.
  split; [apply length_map|].
  change (map ?f ?l) with (f <$> l). rewrite list_lookup_fmap, Hentry.
  cbn [fmap option_fmap option_map]. eexists. split; [reflexivity|].
  cbn [amount callback item]. repeat split.
  - intros k ->.
    apply NoDup_cons in Hdistinct as [Hs Hrest].
    apply NoDup_cons in Hrest as [Hm _].
    assert (MOVE_POTION <> STRENGTH_POTION) as Hms
      by (intros Heq; apply Hs; rewrite <- Heq; left).
    assert (FANCY_POTION <> STRENGTH_POTION) as Hfs
      by (intros Heq; apply Hs; rewrite <- Heq; right; left).
    assert (FANCY_POTION <> MOVE_POTION) as Hfm
      by (intros Heq; apply Hm; rewrite <- Heq; left).
    apply Ascii.eqb_neq in Hms, Hfs, Hfm.
    unfold str1. destruct k; cbn [Potion_get_type String.eqb potion_name];
      rewrite ?Ascii.eqb_refl, ?Hms, ?Hfs, ?Hfm; reflexivity.
  - intros Hkey.
    pose proof (Hkey StrengthPotion) as Hs.
    pose proof (Hkey MovePotion) as Hm.
    pose proof (Hkey FancyPotion) as Hf.
    apply String.eqb_neq in Hs, Hm, Hf. cbn [Potion_get_type] in *.
    rewrite Hs, Hm, Hf. reflexivity.
Qed.

End SessionFacts.

(** ** The further statements at concrete games *)

Lemma shown_game_in_sync : in_sync shown_game.
Proof. reflexivity. Defined.

Lemma letters_no_newline :
  nl ∉ [@PLAYER letters; @WALL letters; @FANCY_POTION letters;
        @MOVE_POTION letters; @STRENGTH_POTION letters].
Proof. apply (bool_decide_unpack _). vm_compute. exact I. Defined.

Lemma yes_keeps_window :
  Destroy ∉ performed (@handle_keypress letters_engine (fun _ => true) "d")
              shown_game.
Proof.
  rewrite (proj2 (@handle_keypress_performed letters_engine (fun _ => true)
                    "d" shown_game d_is_movement_key)).
  intros Hin.
  repeat (apply elem_of_cons in Hin as [Hin|Hin]; [discriminate Hin|]).
  inversion Hin.
Defined.

Lemma handle_keypress_in_sync_witness :
  in_sync shown_game
  /\ (Destroy ∉ performed (@handle_keypress letters_engine (fun _ => true) "d")
                  shown_game)
  /\ in_sync (@handle_keypress letters_engine (fun _ => true) "d" shown_game).2.
Proof.
  split; [exact shown_game_in_sync|]. split; [exact yes_keeps_window|].
  apply (@handle_keypress_in_sync letters_engine (fun _ => true) "d"
           shown_game shown_game_in_sync yes_keeps_window).
Defined.

Lemma perform_action_in_sync_witness :
  in_sync shown_game
  /\ in_sync (@perform_action letters letters_engine "S" shown_game).2.
Proof.
  split; [exact shown_game_in_sync|].
  apply (@perform_action_in_sync letters letters_engine "S" shown_game
           shown_game_in_sync).
Defined.

Lemma small_file_loads :
  (@load_game_state letters small_file (fresh game)).1 = Done tt.
Proof. vm_compute. reflexivity. Defined.

Lemma load_in_sync_witness :
  (@load_game_state letters small_file (fresh game)).1 = Done tt
  /\ in_sync (@load_game_state letters small_file (fresh game)).2.
Proof.
  split; [exact small_file_loads|].
  apply (@load_in_sync letters small_file (fresh game) small_file_loads).
Defined.

Lemma handle_keypress_mutations_witness :
  "d" ∈ movement_keys
  /\ model (@handle_keypress letters_engine (fun _ => false) "d"
             (fresh game)).2
     = game
  /\ List.filter is_mutation
       (performed (@handle_keypress letters_engine (fun _ => false) "d")
          (fresh game))
     = [Call (m_attempt_move "d"); Call m_reset].
Proof.
  split; [exact d_is_movement_key|].
  destruct (@handle_keypress_mutations letters_engine (fun _ => false) "d"
              (fresh game) d_is_movement_key) as [Hmodel Hcalls].
  split.
  - etrans; [exact Hmodel | reflexivity].
  - etrans; [exact Hcalls | reflexivity].
Defined.

Lemma small_file_header :
  parse_stats (header_items ("2 5" ++ str1 nl)) = Some [2; 5].
Proof. vm_compute. reflexivity. Defined.

Lemma small_file_short : short_items ("2 5" ++ str1 nl) = true.
Proof. vm_compute. reflexivity. Defined.

Lemma load_outcome_witness :
  short_header small_file = true
  /\ (@load_game_state letters small_file (fresh later_game)).1 = Done tt.
Proof.
  split; [exact small_file_short|].
  etrans;
    [exact (@load_outcome letters small_file (fresh later_game)
              small_file_short)|].
  vm_compute. reflexivity.
Defined.

Lemma load_completed_model_witness :
  short_items ("2 5" ++ str1 nl) = true
  /\ parse_stats (header_items ("2 5" ++ str1 nl)) = Some [2; 5]
  /\ existsb (@row_calls_marker letters) ["WWW" ++ str1 nl; "WPW" ++ str1 nl]
     = false
  /\ last ["WWW" ++ str1 nl; "WPW" ++ str1 nl] = Some ("WPW" ++ str1 nl)
  /\ model (@load_game_state letters small_file (fresh later_game)).2
     = {| _maze := corridor; _entities := {[ (1, 3) := Crate 1 ]};
          _player_position := (1, 2);
          _player := {| _strength := 1; _moves_remaining := 9; _money := 3 |};
          player_strength := Some 2; player_moves_remaining := Some 5;
          maze := Some [RMarker "W"; RMarker "W"; RSelf] |}.
Proof.
  assert (existsb (@row_calls_marker letters)
            ["WWW" ++ str1 nl; "WPW" ++ str1 nl] = false) as Hrows
    by (vm_compute; reflexivity).
  split; [exact small_file_short|].
  split; [exact small_file_header|]. split; [exact Hrows|].
  split; [reflexivity|].
  etrans;
    [exact (proj2 (@load_completed_model letters ("2 5" ++ str1 nl)
                     ["WWW" ++ str1 nl; "WPW" ++ str1 nl] 2 5 []
                     ("WPW" ++ str1 nl) (fresh later_game)
                     small_file_short small_file_header Hrows eq_refl))|].
  vm_compute. reflexivity.
Defined.


Lemma load_assigns_stats_witness :
  short_items ("2 5" ++ str1 nl) = true
  /\ parse_stats (header_items ("2 5" ++ str1 nl)) = Some [2; 5]
  /\ (@load_game_state letters ["2 5" ++ str1 nl; "WPM" ++ str1 nl]
        (fresh game)).1 = Raise Py.TypeError
  /\ player_strength
       (model (@load_game_state letters ["2 5" ++ str1 nl; "WPM" ++ str1 nl]
                 (fresh game)).2) = Some 2
  /\ player_moves_remaining
       (model (@load_game_state letters ["2 5" ++ str1 nl; "WPM" ++ str1 nl]
                 (fresh game)).2) = Some 5.
Proof.
  split; [exact small_file_short|].
  split; [exact small_file_header|]. split; [vm_compute; reflexivity|].
  apply (@load_assigns_stats letters ("2 5" ++ str1 nl) ["WPM" ++ str1 nl]
           2 5 [] (fresh game) small_file_short small_file_header).
Defined.

Lemma saved_file_lines_witness :
  (nl ∉ [@PLAYER letters; @WALL letters; @FANCY_POTION letters;
         @MOVE_POTION letters; @STRENGTH_POTION letters])
  /\ Py.readlines (@save_game_state letters coin_game)
     = ("2 5" ++ str1 nl)
         :: map (fun ir => @save_row letters coin_game ir.1 ir.2)
              (Py.enumerate corridor).
Proof.
  split; [exact letters_no_newline|].
  apply (@saved_file_lines letters coin_game letters_no_newline).
Defined.

Lemma game_writes_one_char :
  forall p e, get_entities game !! p = Some e -> @writes_one_char letters e.
Proof.
  intros p e He. unfold get_entities, game in He. cbn [_entities] in He.
  apply lookup_singleton_Some in He as [_ <-]. cbn. lia.
Defined.

Lemma saved_row_width_witness :
  (forall p e, get_entities game !! p = Some e -> @writes_one_char letters e)
  /\ String.length
       (@save_row letters game 1 [Wall; Floor; Floor; Goal; Wall]) = 6%nat.
Proof.
  split; [exact game_writes_one_char|].
  apply (@saved_row_width letters game 1 [Wall; Floor; Floor; Goal; Wall]
           game_writes_one_char).
Defined.

Lemma load_of_saved_outcome_witness :
  (nl ∉ [@PLAYER letters; @WALL letters; @FANCY_POTION letters;
         @MOVE_POTION letters; @STRENGTH_POTION letters])
  /\ (@load_game_state letters (Py.readlines (@save_game_state letters game))
        (fresh later_game)).1 = Done tt.
Proof.
  split; [exact letters_no_newline|].
  etrans;
    [exact (@load_of_saved_outcome letters game (fresh later_game)
              letters_no_newline)|].
  vm_compute. reflexivity.
Defined.

Lemma potion_marker_apart :
  @Potion_get_type letters MovePotion
  ∉ [@PLAYER letters; @WALL letters; @CRATE letters].
Proof. apply (bool_decide_unpack _). vm_compute. exact I. Defined.

Lemma potion_not_under_player :
  (Z.of_nat 1, Z.of_nat 2) <> get_player_position potion_game.
Proof. discriminate. Defined.

Lemma floor_is_no_wall : @Tile_get_type letters Floor <> @WALL letters.
Proof. discriminate. Defined.

Lemma saved_potion_breaks_load_witness :
  (nl ∉ [@PLAYER letters; @WALL letters; @FANCY_POTION letters;
         @MOVE_POTION letters; @STRENGTH_POTION letters])
  /\ get_entities potion_game !! (Z.of_nat 1, Z.of_nat 2)
     = Some (APotion MovePotion)
  /\ (@load_game_state letters
        (Py.readlines (@save_game_state letters potion_game))
        (fresh game)).1 = Raise Py.TypeError.
Proof.
  split; [exact letters_no_newline|]. split; [reflexivity|].
  apply (@saved_potion_breaks_load letters potion_game (fresh game) 1 2
           [Wall; Floor; Floor; Goal; Wall] Floor MovePotion
           letters_no_newline eq_refl eq_refl floor_is_no_wall
           potion_not_under_player eq_refl potion_marker_apart eq_refl).
Defined.

Lemma constructed_session_witness :
  (forall message : string, (fun _ : string => true) message = true)
  /\ in_sync (@session letters letters_engine (fun _ => true)
                [Press "d"; Buy "M"]
                (@construct letters letters_engine game).1).
Proof.
  split; [reflexivity|].
  apply (@constructed_session_in_sync letters letters_engine (fun _ => true)
           game [Press "d"; Buy "M"] (fun _ => eq_refl)).
Defined.

Lemma create_shop_items_witness :
  NoDup [@STRENGTH_POTION letters; @MOVE_POTION letters; @FANCY_POTION letters]
  /\ [("M", 5); ("?", 1)] !! 1%nat = Some ("?", 1)
  /\ exists b,
       @create_shop_items letters [("M", 5); ("?", 1)]
         (@perform_action letters letters_engine) !! 1%nat = Some b
       /\ amount b = 1
       /\ item b = None.
Proof.
  split; [exact letters_distinct|]. split; [reflexivity|].
  destruct (@create_shop_items_frames letters [("M", 5); ("?", 1)]
              (@perform_action letters letters_engine) 1 "?" 1
              letters_distinct eq_refl)
    as (_ & b & Hb & Hamount & _ & _ & Hnone).
  exists b. split; [exact Hb|]. split; [exact Hamount|].
  apply Hnone. intros k. destruct k; discriminate.
Defined.

(** The separators and the no-break space in a file.  An item with a
    separator FS before its digit is refused by [int()]: [ValueError],
    nothing assigned.  A no-break space before the first line or before
    a row is stripped: the stats are read, and the player marker that
    follows it counts as column 0. *)
Example load_with_special_spaces :
  @load_game_state letters ["2 " ++ String "028" "5" ++ str1 nl;
                            "WPW" ++ str1 nl] (fresh game)
  = (Raise Py.ValueError, fresh game)
  /\ header_fault [String "160" "2 5" ++ str1 nl] = None
  /\ (let r := @load_game_state letters
                 [String "160" "2 5" ++ str1 nl; String "160" "PW" ++ str1 nl]
                 (fresh game) in
      r.1 = Done tt
      /\ player_strength (model r.2) = Some 2
      /\ player_moves_remaining (model r.2) = Some 5
      /\ _player_position (model r.2) = (0, 1)).
Proof. repeat split; vm_compute; reflexivity. Qed.
